(** * Off-policy evaluation estimators of [contextualbandits/evaluation.py]

    A shallow embedding of the five evaluators of the module
    ([evaluateRejectionSampling], [evaluateDoublyRobust],
    [evaluateFullyLabeled], [evaluateDoublyRobustSimplified],
    [evaluateNCIS]) together with the NumPy and Python primitives they
    are written with.

    Conventions of the embedding.
    - A NumPy float is an exact rational ([Q]); the one non-finite value
      the evaluators can return on finite data, the [nan] that [np.mean]
      gives for an empty array, is explicit ([npfloat]).  Division is
      [Qdiv]; every theorem that divides by a propensity assumes that
      propensity to be non-zero, which is where NumPy would leave the
      finite numbers.
    - A Python exception is a value of [exn]; a call that can raise
      returns a [result].
    - The external collaborators (the policy, the random generator, the
      reward model) are the variables of a section: the evaluators are
      modelled for every implementation of their contracts. *)

From Stdlib Require Import String QArith Qround ZArith List Bool Lia Lqa
  Permutation.
Import ListNotations.

Open Scope Q_scope.

(** ** Python outcomes *)

Inductive exn : Type :=
| AssertionError
| ValueError (msg : string)
| TypeError
| IndexError
| ZeroDivisionError
| NameError (name : string).

Inductive result (A : Type) : Type :=
| Ok (a : A)
| Raise (e : exn).

Arguments Ok {A} a.
Arguments Raise {A} e.

Definition bind {A B : Type} (m : result A) (k : A -> result B) : result B :=
  match m with
  | Ok a => k a
  | Raise e => Raise e
  end.

Declare Scope py_scope.
Delimit Scope py_scope with py.

Notation "x <- m ;; k" := (bind m (fun x => k))
  (at level 61, m at next level, right associativity) : py_scope.
Notation "' p <- m ;; k" := (bind m (fun v => let p := v in k))
  (at level 61, p pattern, m at next level, right associativity) : py_scope.

(** [assert b] of Python. *)
Definition py_assert (b : bool) : result unit :=
  if b then Ok tt else Raise AssertionError.

Notation "'assert!' b ;; k" := (bind (py_assert b) (fun _ => k))
  (at level 61, b at next level, right associativity) : py_scope.

Open Scope py_scope.

(** ** NumPy arrays and the primitives the evaluators use *)

(** An array is known by its rank: the evaluators see rank 1 and rank 2. *)
Inductive ndarray (A : Type) : Type :=
| Arr1 (v : list A)
| Arr2 (m : list (list A)).

Arguments Arr1 {A} v.
Arguments Arr2 {A} m.

(** The covariate matrix: [n] rows of [d] numbers. *)
Definition matrix : Type := list (list Q).

(** The value of [np.mean], [nan] on an empty array. *)
Inductive npfloat : Type :=
| Val (q : Q)
| NaN.

Definition Qltb (x y : Q) : bool := negb (Qle_bool y x).

(** Element-wise binary operation on arrays of one shape. *)
Fixpoint zip_with {A B C : Type} (f : A -> B -> C) (xs : list A) (ys : list B)
  : list C :=
  match xs, ys with
  | x :: xs', y :: ys' => f x y :: zip_with f xs' ys'
  | _, _ => []
  end.

Definition np_add : list Q -> list Q -> list Q := zip_with Qplus.
Definition np_sub : list Q -> list Q -> list Q := zip_with Qminus.
Definition np_mul : list Q -> list Q -> list Q := zip_with Qmult.
Definition np_div : list Q -> list Q -> list Q := zip_with Qdiv.

(** [np.clip(x, a_min=lo, a_max=None)]. *)
Definition clip_min (lo x : Q) : Q := if Qltb x lo then lo else x.
Definition np_clip_min (xs : list Q) (lo : Q) : list Q := map (clip_min lo) xs.

(** [xs <= c], a boolean array. *)
Definition np_le (xs : list Q) (c : Q) : list bool :=
  map (fun x => Qle_bool x c) xs.

(** [np.sum] of a boolean array. *)
Definition count_true (mask : list bool) : nat :=
  length (filter (fun b => b) mask).

(** [xs[mask]], boolean-mask indexing; the result always has rank 1. *)
Fixpoint select {A : Type} (mask : list bool) (xs : list A) : list A :=
  match mask, xs with
  | b :: mask', x :: xs' =>
      if b then x :: select mask' xs' else select mask' xs'
  | _, _ => []
  end.

(** [np.sum] of a float array. *)
Definition np_sum (xs : list Q) : Q := fold_left Qplus xs 0.

(** [np.mean]: the sum over the number of elements, [nan] when there is
    none. *)
Definition np_mean (xs : list Q) : npfloat :=
  match xs with
  | [] => NaN
  | _ => Val (np_sum xs / inject_Z (Z.of_nat (length xs)))
  end.

(** [np.zeros(n)], used only as a placeholder action array. *)
Definition np_zeros (n : nat) : list Z := repeat 0%Z n.

(** [np.einsum("ij,ij->i", a, b)]: both operands are subscripted with two
    indices, so both must have rank 2; NumPy raises [ValueError] (too
    many subscripts for the operand) otherwise.  On rank-2 operands it
    returns the row-wise dot products. *)
Definition einsum_ij_ij_i (a b : ndarray Q) : result (list Q) :=
  match a, b with
  | Arr2 ma, Arr2 mb =>
      Ok (zip_with (fun ra rb => np_sum (np_mul ra rb)) ma mb)
  | Arr1 _, _ =>
      Raise (ValueError
        "einstein sum subscripts string contains too many subscripts for operand 0"%string)
  | _, Arr1 _ =>
      Raise (ValueError
        "einstein sum subscripts string contains too many subscripts for operand 1"%string)
  end.

(** ** Input validation ([utils.py], not part of the sources at hand) *)

(** Modelled from the spec: [_check_1d_inp] of [utils.py], which is
    missing.  It coerces a 1-D quantity to a flat numeric sequence and
    fails if the rank is not 1. *)
Definition _check_1d_inp {A : Type} (y : ndarray A) : result (list A) :=
  match y with
  | Arr1 v => Ok v
  | Arr2 _ => Raise AssertionError
  end.

(** Modelled from the spec: [_check_fit_input] of [utils.py], which is
    missing.  It verifies that [X], [a] and [r] have the same leading
    dimension and returns them as flat arrays. *)
Definition _check_fit_input (X : matrix) (a : ndarray Z) (r : ndarray Q)
  : result (matrix * list Z * list Q) :=
  a <- _check_1d_inp a ;;
  r <- _check_1d_inp r ;;
  assert! (length X =? length a)%nat ;;
  assert! (length X =? length r)%nat ;;
  Ok (X, a, r).

(** ** [evaluateDoublyRobustSimplified] and [evaluateNCIS] *)

Definition no_cases_msg : string := "No cases below maximum 'c'."%string.

Definition evaluateDoublyRobustSimplified
  (est : ndarray Q) (X : matrix) (r : ndarray Q) (p : ndarray Q)
  (cmin cmax : Q) : result npfloat :=
  est <- _check_1d_inp est ;;
  p <- _check_1d_inp p ;;
  assert! (length est =? length X)%nat ;;
  assert! (length p =? length X)%nat ;;
  '(_, _, r) <- _check_fit_input X (Arr1 (np_zeros (length p))) r ;;
  let w := np_clip_min (np_div est p) cmin in
  let take := np_le w cmax in
  if (count_true take =? 0)%nat then Raise (ValueError no_cases_msg)
  else
    Ok (np_mean
          (np_add (np_mul (np_sub (select take r) (select take p))
                          (select take w))
                  (select take est))).

Definition evaluateNCIS
  (est : ndarray Q) (X : matrix) (r : ndarray Q) (p : ndarray Q)
  (cmin cmax : Q) : result (list Q) :=
  est <- _check_1d_inp est ;;
  p <- _check_1d_inp p ;;
  assert! (length est =? length X)%nat ;;
  assert! (length p =? length X)%nat ;;
  '(_, _, r) <- _check_fit_input X (Arr1 (np_zeros (length p))) r ;;
  let w := np_clip_min (np_div est p) cmin in
  let take := np_le w cmax in
  if (count_true take =? 0)%nat then Raise (ValueError no_cases_msg)
  else
    num <- einsum_ij_ij_i (Arr1 (select take w)) (Arr1 (select take r)) ;;
    Ok (map (fun x => x / np_sum (select take w)) num).

(** ** Python indexing *)

(** [xs[i]] for a Python integer [i]: negative indices count from the
    end, anything outside [-len, len) raises [IndexError]. *)
Definition py_getitem {A : Type} (xs : list A) (i : Z) : result A :=
  let n := Z.of_nat (length xs) in
  let j := if (i <? 0)%Z then (i + n)%Z else i in
  if ((0 <=? j) && (j <? n))%Z then
    match nth_error xs (Z.to_nat j) with
    | Some x => Ok x
    | None => Raise IndexError
    end
  else Raise IndexError.

(** The non-negative indices of [xs]. *)
Definition in_range {A : Type} (xs : list A) (i : Z) : Prop :=
  (0 <= i < Z.of_nat (length xs))%Z.

Fixpoint map_result {A B : Type} (f : A -> result B) (xs : list A)
  : result (list B) :=
  match xs with
  | [] => Ok []
  | x :: xs' =>
      y <- f x ;;
      ys <- map_result f xs' ;;
      Ok (y :: ys)
  end.

(** [xs[ix]] for an integer index array [ix] (fancy indexing). *)
Definition np_take {A : Type} (xs : list A) (ix : list Z) : result (list A) :=
  map_result (py_getitem xs) ix.

(** [m[rows, cols]] for two index arrays of one length. *)
Definition np_take2 (m : list (list Q)) (rows cols : list Z)
  : result (list Q) :=
  map_result (fun rc => row <- py_getitem m (fst rc) ;; py_getitem row (snd rc))
             (combine rows cols).

(** [range(lo, hi)]. *)
Definition py_range (lo hi : Z) : list Z :=
  map (fun k => (lo + Z.of_nat k)%Z) (seq 0 (Z.to_nat (hi - lo))).

(** [l[:stop:-1]]: with step -1 the slice starts at the last element and
    walks down to, and without, index [stop]; a negative [stop] counts
    from the end and is clamped to [-1], a large one to [len - 1]. *)
Definition slice_stop_rev {A : Type} (l : list A) (stop : Z) : list A :=
  let len := Z.of_nat (length l) in
  let stop' :=
    if (stop <? 0)%Z then Z.max (stop + len) (-1) else Z.min stop (len - 1) in
  rev (skipn (Z.to_nat (stop' + 1)) l).

(** [xs[mask] = vals]: the positions where [mask] holds receive the
    values of [vals] in order. *)
Fixpoint masked_assign {A : Type} (xs : list A) (mask : list bool)
  (vals : list A) : list A :=
  match xs, mask with
  | x :: xs', b :: mask' =>
      if b then
        match vals with
        | v :: vals' => v :: masked_assign xs' mask' vals'
        | [] => x :: masked_assign xs' mask' []
        end
      else x :: masked_assign xs' mask' vals
  | _, _ => xs
  end.

(** [xs == c] for a scalar [c]. *)
Definition np_eq_scalar (xs : list Q) (c : Q) : list bool :=
  map (fun x => Qeq_bool x c) xs.

(** ** The collaborators *)

(** The policy under evaluation: an object with mutable state of type
    [S].  [predict] may advance that state (a policy that explores draws
    random numbers), and returns one action per row it is given. *)
Class Policy (S : Type) : Type := {
  predict : S -> matrix -> list Z * S;
  fit : S -> matrix -> list Z -> list Q -> S;
  partial_fit : S -> matrix -> list Z -> list Q -> S;
  predict_length : forall s X, length (fst (predict s X)) = length X
}.

(** NumPy's [Generator]: a state [G] that every draw advances. *)
Class Generator (G : Type) : Type := {
  (** the generator built from an integer seed *)
  seeded : Z -> G;
  (** [rs.integers(high)] for [0 < high] *)
  integers : G -> Z -> Z * G;
  (** [rs.integers(high, size=k)] for [0 < high] *)
  integers_n : G -> Z -> nat -> list Z * G;
  (** [rs.beta(a, b, size=k)] *)
  beta : G -> Q -> Q -> nat -> list Q * G;
  (** [rs.shuffle(arr)] *)
  shuffle : G -> list Z -> list Z * G
}.

(** The [random_state] argument: an integer seed, [None], or a generator
    object. *)
Inductive random_state_arg (G : Type) : Type :=
| RsSeed (seed : Z)
| RsNone
| RsGenerator (g : G).

Arguments RsSeed {G} seed.
Arguments RsNone {G}.
Arguments RsGenerator {G} g.

(** The [start_point_online] argument. *)
Inductive start_point_arg : Type :=
| SpRandom              (* the string 'random' *)
| SpInt (i : Z)
| SpFloat (q : Q)
| SpOther.              (* any other object *)

(** The [reward_estimator] argument of [evaluateDoublyRobust]:
    the caller's n-by-2 array (held in the store, see below), an object
    with [predict_proba_separate], a classifier with [predict_proba], or
    anything else. *)
Inductive reward_estimator_arg (R C : Type) : Type :=
| ReArray
| ReSeparate (model : R)
| ReClassifier (clf : C)
| ReOther.

Arguments ReArray {R C}.
Arguments ReSeparate {R C} model.
Arguments ReClassifier {R C} clf.
Arguments ReOther {R C}.

(** The reward models: [predict_proba_separate] gives one row of per-arm
    estimates for each row of [X]; [SeparateClassifiers_fit] is
    [SeparateClassifiers(clf, nchoices, random_state=rs)] followed by
    [fit(X, a, r)] ([online.py], not part of the sources at hand). *)
Class RewardModel (R C G : Type) : Type := {
  predict_proba_separate : R -> matrix -> list (list Q);
  SeparateClassifiers_fit :
    C -> option Z -> G -> matrix -> list Z -> list Q -> R * G;
  predict_proba_separate_length :
    forall m X, length (predict_proba_separate m X) = length X
}.

(** An array object as [evaluateFullyLabeled] receives it. *)
Inductive pyarray : Type :=
| NdArrayObj (m : matrix)
| DataFrameObj (m : matrix)
| OtherObj.

(** A Python value passed for a flag or a count. *)
Inductive pyval : Type :=
| PyBool (b : bool)
| PyInt (i : Z)
| PyNone.

(** [isinstance(v, bool)]; an [int] is not a [bool]. *)
Definition isinstance_bool (v : pyval) : bool :=
  match v with
  | PyBool _ => true
  | _ => false
  end.

Section Evaluators.

Context {S G R C : Type}.
Context `{Policy S} `{Generator G} `{RewardModel R C G}.

(** Modelled from the spec: [_check_random_state] of [utils.py], which
    is missing.  It resolves an integer seed, [None] (nondeterministic)
    or a generator object to one generator.  [ambient] is the generator
    that the process's entropy would give on this call; it is what
    [None] resolves to. *)
Definition _check_random_state (ambient : G) (random_state : random_state_arg G)
  : G :=
  match random_state with
  | RsSeed seed => seeded seed
  | RsNone => ambient
  | RsGenerator g => g
  end.

(** [rs.integers(high)]: NumPy refuses an empty range. *)
Definition rs_integers (rs : G) (high : Z) : result Z :=
  if (high <=? 0)%Z then Raise (ValueError "high <= 0"%string)
  else Ok (fst (integers rs high)).

(** ** [evaluateRejectionSampling] *)

Definition start_point_msg : string :=
  "'start_point_online' must be one of 'random', float [0,1] or int [0, sample_size]"%string.

Definition no_match_msg : string :=
  "Rejection sampling couldn't obtain any matching samples."%string.

(** The value of [start_point_online] once resolved. *)
Inductive start_value : Type :=
| StartInt (i : Z)
| StartFloat (q : Q).

Definition resolve_start_point (ambient : G) (n : nat)
  (start_point_online : start_point_arg) (random_state : random_state_arg G)
  : result start_value :=
  match start_point_online with
  | SpRandom =>
      let random_state := _check_random_state ambient random_state in
      i <- rs_integers random_state (Z.of_nat n) ;;
      Ok (StartInt i)
  | SpInt i => Ok (StartInt i)
  | SpFloat q => Ok (StartFloat q)
  | SpOther => Raise (ValueError start_point_msg)
  end.

(** The variables of the online loop. *)
Record rs_state : Type := mk_rs_state {
  cum_r : Q;
  cum_n : Z;
  ix_chosen : list Z;
  policy_state : S
}.

(** The refit that an acceptance triggers when [cum_n % update_freq] is
    zero.  [np.array] of an empty list is a float array, which NumPy
    refuses as an index. *)
Definition rs_refit (partial_fit_flag : bool) (update_freq : Z)
  (X : matrix) (a : list Z) (r : list Q) (ix : list Z) (pol : S) : result S :=
  let ix_fit :=
    if negb partial_fit_flag then ix
    else slice_stop_rev ix (- (update_freq + 1)) in
  match ix_fit with
  | [] => Raise IndexError
  | _ =>
      Xf <- np_take X ix_fit ;;
      af <- np_take a ix_fit ;;
      rf <- np_take r ix_fit ;;
      Ok (if negb partial_fit_flag then fit pol Xf af rf
          else partial_fit pol Xf af rf)
  end.

(** One iteration of either [for] loop (their bodies are the same). *)
Definition rs_step (partial_fit_flag : bool) (update_freq : Z)
  (X : matrix) (a : list Z) (r : list Q) (st : rs_state) (i : Z)
  : result rs_state :=
  x <- py_getitem X i ;;
  let obs := [x] in
  let '(preds, pol) := predict (policy_state st) obs in
  would_choose <- py_getitem preds 0 ;;
  ai <- py_getitem a i ;;
  if (would_choose =? ai)%Z then
    ri <- py_getitem r i ;;
    let cum_r' := cum_r st + ri in
    let cum_n' := (cum_n st + 1)%Z in
    let ix' := ix_chosen st ++ [i] in
    if (update_freq =? 0)%Z then Raise ZeroDivisionError
    else if (cum_n' mod update_freq =? 0)%Z then
      pol' <- rs_refit partial_fit_flag update_freq X a r ix' pol ;;
      Ok (mk_rs_state cum_r' cum_n' ix' pol')
    else Ok (mk_rs_state cum_r' cum_n' ix' pol)
  else Ok (mk_rs_state (cum_r st) (cum_n st) (ix_chosen st) pol).

Fixpoint rs_for (partial_fit_flag : bool) (update_freq : Z)
  (X : matrix) (a : list Z) (r : list Q) (st : rs_state) (ixs : list Z)
  : result rs_state :=
  match ixs with
  | [] => Ok st
  | i :: ixs' =>
      st' <- rs_step partial_fit_flag update_freq X a r st i ;;
      rs_for partial_fit_flag update_freq X a r st' ixs'
  end.

(** The online branch up to the end of the second loop. *)
Definition rs_online_loops (policy : S) (X : matrix) (a : list Z) (r : list Q)
  (partial_fit_flag : bool) (start : start_value) (update_freq : Z)
  : result rs_state :=
  let pol := fit policy (firstn 0 X) (firstn 0 a) (firstn 0 r) in
  let st0 := mk_rs_state 0 0 [] pol in
  match start with
  | StartFloat _ => Raise TypeError   (* [range] refuses a float *)
  | StartInt s =>
      let n := Z.of_nat (length X) in
      st1 <- rs_for partial_fit_flag update_freq X a r st0 (py_range s n) ;;
      rs_for partial_fit_flag update_freq X a r st1 (py_range 0 s)
  end.

Definition evaluateRejectionSampling (ambient : G) (policy : S)
  (X : matrix) (a : ndarray Z) (r : ndarray Q)
  (online partial_fit_flag : bool) (start_point_online : start_point_arg)
  (random_state : random_state_arg G) (update_freq : Z)
  : result (npfloat * Z) :=
  '(X, a, r) <- _check_fit_input X a r ;;
  start <- resolve_start_point ambient (length X) start_point_online
             random_state ;;
  if negb online then
    let pred := fst (predict policy X) in
    let match_ := zip_with Z.eqb pred a in
    Ok (np_mean (select match_ r), Z.of_nat (count_true match_))
  else
    st <- rs_online_loops policy X a r partial_fit_flag start update_freq ;;
    if (cum_n st =? 0)%Z then Raise (ValueError no_match_msg)
    else Ok (Val (cum_r st / inject_Z (cum_n st)), cum_n st).

(** ** [evaluateDoublyRobust] *)

(** The caller-held arrays that the evaluator can reach: the n-by-2
    array passed as [reward_estimator] (one pair per row: estimate for
    the new policy's action, estimate for the logged action) and the
    array passed as [p]. *)
Record store : Type := mk_store {
  reward_estimator_buf : list (Q * Q);
  p_buf : ndarray Q
}.

(** What a local array variable is bound to: a view of one column of the
    caller's array (basic slicing, [reward_estimator[:, j]], shares the
    memory) or an array of the call's own. *)
Inductive array_ref : Type :=
| ColumnView (second : bool)
| Owned (v : list Q).

Definition read (h : store) (x : array_ref) : list Q :=
  match x with
  | ColumnView false => map fst (reward_estimator_buf h)
  | ColumnView true => map snd (reward_estimator_buf h)
  | Owned v => v
  end.

(** An in-place write of the whole contents [v] (of the array's length)
    through the reference. *)
Definition write (h : store) (x : array_ref) (v : list Q) : store * array_ref :=
  match x with
  | ColumnView false =>
      (mk_store (combine v (map snd (reward_estimator_buf h))) (p_buf h), x)
  | ColumnView true =>
      (mk_store (combine (map fst (reward_estimator_buf h)) v) (p_buf h), x)
  | Owned _ => (h, Owned v)
  end.

Definition reward_estimator_msg : string :=
  "'reward_estimator' must be either an array, a classifier with'predict_proba', or a 'SeparateClassifiers' object."%string.

(** The [if]/[elif] chain that binds [rhat_new] and [rhat_old]. *)
Definition resolve_reward_estimator (rs : G)
  (reward_estimator : reward_estimator_arg R C) (h : store)
  (X : matrix) (a : list Z) (r : list Q) (pred : list Z) (nchoices : option Z)
  : result (array_ref * array_ref * G) :=
  match reward_estimator with
  | ReArray =>
      (* [shape[1] == 2] holds by the type of the buffer *)
      assert! (length (reward_estimator_buf h) =? length X)%nat ;;
      Ok (ColumnView false, ColumnView true, rs)
  | ReSeparate model =>
      let rhat := predict_proba_separate model X in
      let rows := py_range 0 (Z.of_nat (length rhat)) in
      rhat_new <- np_take2 rhat rows pred ;;
      rhat_old <- np_take2 rhat rows a ;;
      Ok (Owned rhat_new, Owned rhat_old, rs)
  | ReClassifier clf =>
      let '(model, rs') := SeparateClassifiers_fit clf nchoices rs X a r in
      let rhat := predict_proba_separate model X in
      let rows := py_range 0 (Z.of_nat (length rhat)) in
      rhat_new <- np_take2 rhat rows pred ;;
      rhat_old <- np_take2 rhat rows a ;;
      Ok (Owned rhat_new, Owned rhat_old, rs')
  | ReOther => Raise (ValueError reward_estimator_msg)
  end.

(** The two statements that replace the estimates equal to 1, then those
    equal to 0, in the array [x]:
    [x[x==1] = rs.beta(3,1,size=x.shape)[x==1]] and
    [x[x==0] = rs.beta(1,3,size=x.shape)[x==0]]. *)
Definition impute_invalid (rs : G) (h : store) (x : array_ref)
  : G * store * array_ref :=
  let '(draws1, rs1) := beta rs 3 1 (length (read h x)) in
  let vals1 := select (np_eq_scalar (read h x) 1) draws1 in
  let '(h1, x1) :=
    write h x (masked_assign (read h x) (np_eq_scalar (read h x) 1) vals1) in
  let '(draws0, rs2) := beta rs1 1 3 (length (read h1 x1)) in
  let vals0 := select (np_eq_scalar (read h1 x1) 0) draws0 in
  let '(h2, x2) :=
    write h1 x1
      (masked_assign (read h1 x1) (np_eq_scalar (read h1 x1) 0) vals0) in
  (rs2, h2, x2).

(** The propensities after [if c is not None: p = c*p] and
    [if pmin is not None: p = np.clip(p, a_min=pmin, a_max=None)].  Both
    statements bind [p] to a new array. *)
Definition rescale (c : option Q) (p : list Q) : list Q :=
  match c with
  | Some c => map (Qmult c) p
  | None => p
  end.

Definition clip_below (pmin : option Q) (p : list Q) : list Q :=
  match pmin with
  | Some pmin => np_clip_min p pmin
  | None => p
  end.

Definition dr_propensities (c pmin : option Q) (p : list Q) : list Q :=
  clip_below pmin (rescale c p).

(** From [if handle_invalid:] to the end, on validated inputs. *)
Definition dr_estimate (rs : G) (h : store)
  (rhat_new rhat_old : array_ref) (pred a : list Z) (r p : list Q)
  (handle_invalid : bool) (c pmin : option Q) : npfloat * store :=
  let '(h, rhat_new, rhat_old) :=
    if handle_invalid then
      let '(rs1, h1, rhat_new) := impute_invalid rs h rhat_new in
      let '(_, h2, rhat_old) := impute_invalid rs1 h1 rhat_old in
      (h2, rhat_new, rhat_old)
    else (h, rhat_new, rhat_old) in
  let p := dr_propensities c pmin p in
  let actions_matching := zip_with Z.eqb pred a in
  let out := rhat_new in
  let correction :=
    np_div (np_sub (select actions_matching r)
                   (select actions_matching (read h rhat_old)))
           (select actions_matching p) in
  let '(h, out) :=
    write h out
      (masked_assign (read h out) actions_matching
         (np_add (select actions_matching (read h out)) correction)) in
  (np_mean (read h out), h).

(** The checks and the resolution that precede it. *)
Definition dr_validate (ambient : G) (h : store)
  (pred : ndarray Z) (X : matrix) (a : ndarray Z) (r : ndarray Q)
  (reward_estimator : reward_estimator_arg R C) (nchoices : option Z)
  (random_state : random_state_arg G)
  : result (list Z * list Z * list Q * list Q * array_ref * array_ref * G) :=
  '(X, a, r) <- _check_fit_input X a r ;;
  p <- _check_1d_inp (p_buf h) ;;
  pred <- _check_1d_inp pred ;;
  assert! (length p =? length X)%nat ;;
  assert! (length pred =? length X)%nat ;;
  let rs := _check_random_state ambient random_state in
  '(rhat_new, rhat_old, rs) <-
    resolve_reward_estimator rs reward_estimator h X a r pred nchoices ;;
  Ok (pred, a, r, p, rhat_new, rhat_old, rs).

(** [c] and [pmin] are floats or [None] by their types, which is what
    the two [isinstance] assertions check.  The call returns its value
    (or exception) and the store it leaves. *)
Definition evaluateDoublyRobust (ambient : G) (h : store)
  (pred : ndarray Z) (X : matrix) (a : ndarray Z) (r : ndarray Q)
  (reward_estimator : reward_estimator_arg R C) (nchoices : option Z)
  (handle_invalid : bool) (c pmin : option Q)
  (random_state : random_state_arg G) : result npfloat * store :=
  match dr_validate ambient h pred X a r reward_estimator nchoices
          random_state with
  | Raise e => (Raise e, h)
  | Ok (pred, a, r, p, rhat_new, rhat_old, rs) =>
      let '(est, h') :=
        dr_estimate rs h rhat_new rhat_old pred a r p handle_invalid c pmin in
      (Ok est, h')
  end.

(** ** [evaluateFullyLabeled] *)

(** [X.as_matrix()] when [X] is a [DataFrame]; other objects are left as
    they are. *)
Definition as_matrix_if_frame (x : pyarray) : pyarray :=
  match x with
  | DataFrameObj m => NdArrayObj m
  | _ => x
  end.

(** [type(x).__name__=='ndarray'], with the contents when it holds. *)
Definition ndarray_contents (x : pyarray) : result matrix :=
  match x with
  | NdArrayObj m => Ok m
  | _ => Raise AssertionError
  end.

(** A [bool] used as a number. *)
Definition bool_as_int (b : bool) : Z := if b then 1%Z else 0%Z.

(** The block of assertions.  [update_freq] is compared with the number
    of rows only after it has passed for a [bool]. *)
Definition fl_validate (X y_onehot : pyarray) (online shuffle_flag update_freq : pyval)
  : result (matrix * matrix * bool * bool * bool) :=
  let X := as_matrix_if_frame X in
  let y_onehot := as_matrix_if_frame y_onehot in
  X <- ndarray_contents X ;;
  y_onehot <- ndarray_contents y_onehot ;;
  assert! (isinstance_bool online) ;;
  assert! (isinstance_bool shuffle_flag) ;;
  assert! (isinstance_bool update_freq) ;;
  match online, shuffle_flag, update_freq with
  | PyBool online, PyBool shuffle_flag, PyBool update_freq =>
      assert! (bool_as_int update_freq <? Z.of_nat (length X))%Z ;;
      assert! (length X =? length y_onehot)%nat ;;
      assert! (0 <? length X)%nat ;;
      Ok (X, y_onehot, online, shuffle_flag, update_freq)
  | _, _, _ => Raise AssertionError
  end.

(** The objects of the caller that the call can reach: the policy and
    the two arrays. *)
Record fl_world : Type := mk_fl_world {
  fl_policy : S;
  fl_X : pyarray;
  fl_y_onehot : pyarray
}.

(** The seed batch: [X[:update_freq,:]], the random actions and their
    rewards in [y_onehot]. *)
Definition fl_seed_batch (rs : G) (X y_onehot : matrix) (update_freq : bool)
  : result (matrix * list Z * list Q) :=
  let n_choices := Z.of_nat (length (hd [] y_onehot)) in
  let k := bool_as_int update_freq in
  let batch_features := firstn (Z.to_nat k) X in
  if (n_choices <=? 0)%Z then Raise (ValueError "high <= 0"%string)
  else
    let batch_actions := fst (integers_n rs n_choices (Z.to_nat k)) in
    batch_rewards <- np_take2 y_onehot (py_range 0 k) batch_actions ;;
    Ok (batch_features, batch_actions, batch_rewards).

(** What follows the assertions: the optional shuffle (fancy indexing
    binds [X] and [y_onehot] to new arrays, the caller's are not
    written), the seed batch with its fit, and the header of the [for]
    loop, whose [features] is not defined. *)
Definition fl_run (rs : G) (w : fl_world) (X y_onehot : matrix)
  (online shuffle_flag update_freq : bool) : result (list Q) * fl_world :=
  let n := Z.of_nat (length X) in
  let '(new_order, rs) :=
    if shuffle_flag then shuffle rs (py_range 0 n) else (py_range 0 n, rs) in
  match (X <- np_take X new_order ;;
         y_onehot <- np_take y_onehot new_order ;;
         fl_seed_batch rs X y_onehot update_freq) with
  | Raise e => (Raise e, w)
  | Ok (batch_features, batch_actions, batch_rewards) =>
      let policy' :=
        if online then
          partial_fit (fl_policy w) batch_features batch_actions batch_rewards
        else fit (fl_policy w) batch_features batch_actions batch_rewards in
      (Raise (NameError "features"%string),
       mk_fl_world policy' (fl_X w) (fl_y_onehot w))
  end.

(** The call returns its value (or exception) and the caller's objects
    as it leaves them. *)
Definition evaluateFullyLabeled (ambient : G) (w : fl_world)
  (online shuffle_flag update_freq : pyval)
  (random_state : random_state_arg G) : result (list Q) * fl_world :=
  match fl_validate (fl_X w) (fl_y_onehot w) online shuffle_flag update_freq with
  | Raise e => (Raise e, w)
  | Ok (X, y_onehot, online, shuffle_flag, update_freq) =>
      let rs := _check_random_state ambient random_state in
      fl_run rs w X y_onehot online shuffle_flag update_freq
  end.

End Evaluators.

(** ** The estimators as the specification words them, row by row *)

(** The importance weight of a row: [clip(est_i/p_i, cmin, +inf)]. *)
Definition importance_weight (cmin est_i p_i : Q) : Q :=
  clip_min cmin (est_i / p_i).

(** The kept rows, as triples [(est_i, r_i, p_i)]: those whose weight is
    at most [cmax]. *)
Fixpoint kept_rows (cmin cmax : Q) (est r p : list Q) : list (Q * Q * Q) :=
  match est, r, p with
  | e :: est', ri :: r', pi :: p' =>
      if Qle_bool (importance_weight cmin e pi) cmax
      then (e, ri, pi) :: kept_rows cmin cmax est' r' p'
      else kept_rows cmin cmax est' r' p'
  | _, _, _ => []
  end.

(** The contribution of a kept row to the simplified doubly-robust
    estimate: [(r_i - p_i) * w_i + est_i]. *)
Definition drs_term (cmin : Q) (row : Q * Q * Q) : Q :=
  let '(e, ri, pi) := row in
  (ri - pi) * importance_weight cmin e pi + e.

(** The unweighted mean of the contributions of the kept rows. *)
Definition drs_mean (cmin : Q) (rows : list (Q * Q * Q)) : Q :=
  np_sum (map (drs_term cmin) rows) / inject_Z (Z.of_nat (length rows)).

(** The self-normalised estimate over the kept rows:
    [sum(w_i*r_i)/sum(w_i)]. *)
Definition ncis_value (cmin : Q) (rows : list (Q * Q * Q)) : Q :=
  let w := map (fun '(e, _, pi) => importance_weight cmin e pi) rows in
  let wr := map (fun '(e, ri, pi) => importance_weight cmin e pi * ri) rows in
  np_sum wr / np_sum w.

(** The rewards of the rows on which the prediction is the logged
    action. *)
Fixpoint matching_rewards (pred a : list Z) (r : list Q) : list Q :=
  match pred, a, r with
  | pi :: pred', ai :: a', ri :: r' =>
      if (pi =? ai)%Z then ri :: matching_rewards pred' a' r'
      else matching_rewards pred' a' r'
  | _, _, _ => []
  end.

(** The per-row values of the doubly-robust estimate: the estimate for
    the new policy's action, corrected by [(r_i - rhat_old_i) / p_i] on
    the rows of [matching]. *)
Fixpoint dr_corrected (rhat_new rhat_old : list Q) (matching : list bool)
  (r p : list Q) : list Q :=
  match rhat_new, rhat_old, matching with
  | rn :: rhat_new', ro :: rhat_old', b :: matching' =>
      match r, p with
      | ri :: r', pi :: p' =>
          (if b then rn + (ri - ro) / pi else rn)
            :: dr_corrected rhat_new' rhat_old' matching' r' p'
      | _, _ => []
      end
  | _, _, _ => []
  end.

(** [1] where the prediction is the logged action, [0] elsewhere. *)
Definition match_indicator (pred_i a_i : Z) : Q :=
  if (pred_i =? a_i)%Z then 1 else 0.

(** The per-row values [rhat_new_i + (r_i/p_i) * [pred_i == a_i]]. *)
Fixpoint ips_rows (rhat_new : list Q) (pred a : list Z) (r p : list Q)
  : list Q :=
  match rhat_new, pred, a with
  | rn :: rhat_new', pi :: pred', ai :: a' =>
      match r, p with
      | ri :: r', qi :: p' =>
          (rn + (ri / qi) * match_indicator pi ai)
            :: ips_rows rhat_new' pred' a' r' p'
      | _, _ => []
      end
  | _, _, _ => []
  end.

(** Equality of two results of [np.mean] as numbers. *)
Definition npfloat_eq (x y : npfloat) : Prop :=
  match x, y with
  | Val u, Val v => u == v
  | NaN, NaN => True
  | _, _ => False
  end.

(** A propensity rescaled by [c] and clipped from below at [pmin]. *)
Definition clipped_propensity (c pmin p_i : Q) : Q :=
  if Qltb (c * p_i) pmin then pmin else c * p_i.

(** ** Small collaborators, to run the evaluators on examples *)

(** A linear congruential generator. *)
Definition lcg_next (g : Z) : Z := ((g * 1103515245 + 12345) mod 2147483648)%Z.

Definition lcg_draws (g : Z) (k : nat) : list Z :=
  map (fun i => lcg_next (g + Z.of_nat i)) (seq 0 k).

#[export] Instance lcg_generator : Generator Z := {
  seeded seed := seed;
  integers g high := ((lcg_next g mod high)%Z, lcg_next g);
  integers_n g high k :=
    (map (fun x => (x mod high)%Z) (lcg_draws g k), lcg_next (g + Z.of_nat k));
  beta g _ _ k :=
    (map (fun x => (1 + x mod 97)%Z # 99) (lcg_draws g k),
     lcg_next (g + Z.of_nat k));
  shuffle g l := (rev l, lcg_next g)
}.

(** A policy that reads its action off the first covariate of the row;
    its state counts the refits. *)
Definition oracle_predict (X : matrix) : list Z :=
  map (fun row => Qfloor (hd 0 row)) X.

#[export, refine] Instance oracle_policy : Policy nat := {
  predict s X := (oracle_predict X, s);
  fit s _ _ _ := Datatypes.S s;
  partial_fit s _ _ _ := Datatypes.S s
}.
Proof.
  intros s X. apply length_map.
Defined.

(** A reward model that estimates one half for each of two arms. *)
#[export, refine] Instance half_model : RewardModel unit unit Z := {
  predict_proba_separate _ X := map (fun _ => [1 # 2; 1 # 2]) X;
  SeparateClassifiers_fit _ _ g _ _ _ := (tt, lcg_next g)
}.
Proof.
  intros m X. apply length_map.
Defined.

(** The rewards of the rows of indices [ix], in that order. *)
Definition rewards_at (r : list Q) (ix : list Z) : list Q :=
  map (fun i => nth (Z.to_nat i) r 0) ix.

(** A reward between 0 and 1. *)
Definition unit_reward (x : Q) : Prop := 0 <= x <= 1.

(** The indices that [xs[i]] accepts, and the position each of them
    designates. *)
Definition valid_index {A : Type} (xs : list A) (i : Z) : Prop :=
  (- Z.of_nat (length xs) <= i < Z.of_nat (length xs))%Z.

Definition py_position {A : Type} (xs : list A) (i : Z) : nat :=
  Z.to_nat (if (i <? 0)%Z then (i + Z.of_nat (length xs))%Z else i).




(** * Properties *)

(** ** Lists and masks *)

Lemma count_true_cons (b : bool) (mask : list bool) :
  count_true (b :: mask) = ((if b then 1 else 0) + count_true mask)%nat.
Proof. unfold count_true. simpl. destruct b; reflexivity. Qed.

Lemma np_mean_cons (x : Q) (xs : list Q) :
  np_mean (x :: xs) =
  Val (np_sum (x :: xs) / inject_Z (Z.of_nat (length (x :: xs)))).
Proof. reflexivity. Qed.

(** The array pipeline of the two capped estimators, read row by row. *)
Lemma capped_pipeline_rows (cmin cmax : Q) :
  forall est r p : list Q,
    length r = length est -> length p = length est ->
    let w := np_clip_min (np_div est p) cmin in
    let take := np_le w cmax in
    np_add (np_mul (np_sub (select take r) (select take p)) (select take w))
           (select take est)
    = map (drs_term cmin) (kept_rows cmin cmax est r p)
    /\ count_true take = length (kept_rows cmin cmax est r p).
Proof.
  induction est as [|e est IH]; intros [|ri r] [|pi p] Hr Hp;
    try discriminate; simpl in *.
  - split; reflexivity.
  - injection Hr as Hr. injection Hp as Hp.
    destruct (IH r p Hr Hp) as [IHv IHc].
    unfold np_le, np_clip_min, np_div in *. simpl.
    rewrite count_true_cons.
    fold (importance_weight cmin e pi).
    destruct (Qle_bool (importance_weight cmin e pi) cmax); simpl.
    + split; [ | now rewrite IHc ].
      unfold np_add, np_mul, np_sub in *. simpl. now rewrite IHv.
    + split; assumption.
Qed.

Lemma py_assert_true (A : Type) (b : bool) (k : unit -> result A) :
  b = true -> bind (py_assert b) k = k tt.
Proof. intros ->. reflexivity. Qed.

Lemma check_fit_input_ok (X : matrix) (a : list Z) (r : list Q) :
  length a = length X -> length r = length X ->
  _check_fit_input X (Arr1 a) (Arr1 r) = Ok (X, a, r).
Proof.
  intros Ha Hr. unfold _check_fit_input. simpl.
  rewrite Ha, Hr, !Nat.eqb_refl. reflexivity.
Qed.

Lemma length_np_zeros (n : nat) : length (np_zeros n) = n.
Proof. apply repeat_length. Qed.

Lemma kept_rows_below_cap (cmin cmax : Q) :
  forall est r p : list Q,
    Forall (fun row => let '(e, _, pi) := row in
                       importance_weight cmin e pi <= cmax)
           (kept_rows cmin cmax est r p).
Proof.
  induction est as [|e est IH]; intros [|ri r] [|pi p]; simpl;
    try constructor.
  destruct (Qle_bool (importance_weight cmin e pi) cmax) eqn:E.
  - constructor; [ now apply Qle_bool_iff | apply IH ].
  - apply IH.
Qed.

(** C7.  On arrays of one length with non-zero propensities,
    [evaluateDoublyRobustSimplified] keeps exactly the rows whose weight
    [clip(est_i/p_i, cmin, +inf)] is at most [cmax] (the others are
    dropped, not clipped), returns the unweighted mean of
    [(r_i - p_i) * w_i + est_i] over the kept rows, and raises the
    [ValueError] of an empty selection when no row is kept. *)
Theorem evaluateDoublyRobustSimplified_mean_of_kept_rows :
  forall (est r p : list Q) (X : matrix) (cmin cmax : Q),
    length est = length X -> length r = length X -> length p = length X ->
    Forall (fun x => ~ x == 0) p ->
    evaluateDoublyRobustSimplified (Arr1 est) X (Arr1 r) (Arr1 p) cmin cmax =
      match kept_rows cmin cmax est r p with
      | [] => Raise (ValueError no_cases_msg)
      | rows => Ok (Val (drs_mean cmin rows))
      end
    /\ Forall (fun row => let '(e, _, pi) := row in
                          importance_weight cmin e pi <= cmax)
              (kept_rows cmin cmax est r p).
Proof.
  intros est r p X cmin cmax He Hr Hp _.
  split; [ | apply kept_rows_below_cap ].
  unfold evaluateDoublyRobustSimplified. simpl.
  rewrite !py_assert_true by (apply Nat.eqb_eq; assumption).
  rewrite check_fit_input_ok by (rewrite ?length_np_zeros; congruence).
  simpl.
  destruct (capped_pipeline_rows cmin cmax est r p) as [Hv Hc]; try congruence.
  simpl in Hv, Hc. rewrite Hv, Hc.
  destruct (kept_rows cmin cmax est r p) as [|row rows].
  - reflexivity.
  - cbn [length Nat.eqb map]. rewrite np_mean_cons.
    unfold drs_mean. cbn [map]. now rewrite !length_cons, length_map.
Qed.

(** [evaluateNCIS] has no input on which it returns: when no row is kept
    it raises by design, and when a row is kept the operands it hands to
    [einsum] have rank 1. *)
Lemma evaluateNCIS_never_returns :
  forall (est : ndarray Q) (X : matrix) (r p : ndarray Q) (cmin cmax : Q)
         (v : list Q),
    evaluateNCIS est X r p cmin cmax <> Ok v.
Proof.
  intros est X r p cmin cmax v. unfold evaluateNCIS.
  destruct est as [est|?], p as [p|?]; simpl; try discriminate.
  destruct (length est =? length X)%nat; simpl; try discriminate.
  destruct (length p =? length X)%nat; simpl; try discriminate.
  destruct (_check_fit_input X (Arr1 (np_zeros (length p))) r)
    as [[[X' a'] r']|e]; simpl; try discriminate.
  destruct (count_true _ =? 0)%nat; simpl; discriminate.
Qed.

(** C1.  One row, [est = p = r = 1], default caps: the row is kept (its
    weight is 1) and the self-normalised estimate [sum(w*r)/sum(w)] is
    1, but [evaluateNCIS] raises the [ValueError] of [einsum] instead of
    returning it. *)
Theorem evaluateNCIS_raises_on_kept_row :
  kept_rows (1 # 100000000) 1000 [1] [1] [1] = [(1, 1, 1)]
  /\ ncis_value (1 # 100000000) [(1, 1, 1)] == 1
  /\ evaluateNCIS (Arr1 [1]) [[0]] (Arr1 [1]) (Arr1 [1]) (1 # 100000000) 1000
     = Raise (ValueError
         "einstein sum subscripts string contains too many subscripts for operand 0").
Proof.
  split; [ reflexivity | split; reflexivity ].
Qed.

(** ** Rejection sampling *)

Section RejectionSampling.

Context {S G : Type}.
Context `{Policy S} `{Generator G}.

(** The mask [pred == a] applied to [r], read row by row. *)
Lemma match_mask_rows :
  forall (pred a : list Z) (r : list Q),
    length a = length pred -> length r = length pred ->
    select (zip_with Z.eqb pred a) r = matching_rewards pred a r
    /\ count_true (zip_with Z.eqb pred a) = length (matching_rewards pred a r).
Proof.
  induction pred as [|pi pred IH]; intros [|ai a] [|ri r] Ha Hr;
    try discriminate; simpl in *.
  - split; reflexivity.
  - injection Ha as Ha. injection Hr as Hr.
    destruct (IH a r Ha Hr) as [IHv IHc].
    rewrite count_true_cons.
    destruct (pi =? ai)%Z; simpl.
    + split; [ now rewrite IHv | now rewrite IHc ].
    + split; assumption.
Qed.

(** The start point resolves on a non-empty dataset unless it is of an
    unsupported type. *)
Lemma resolve_start_point_ok (ambient : G) (n : nat)
  (sp : start_point_arg) (random_state : random_state_arg G) :
  (0 < n)%nat -> sp <> SpOther ->
  exists start, resolve_start_point ambient n sp random_state = Ok start.
Proof.
  intros Hn Hsp. destruct sp; simpl; try (eexists; reflexivity).
  - unfold rs_integers.
    destruct (Z.leb_spec (Z.of_nat n) 0); [ lia | ].
    simpl. eexists; reflexivity.
  - contradiction.
Qed.

(** The offline branch, whatever the number of matching rows. *)
Lemma evaluateRejectionSampling_offline :
  forall (ambient : G) (policy : S) (X : matrix) (a : list Z) (r : list Q)
         (partial_fit_flag : bool) (sp : start_point_arg)
         (random_state : random_state_arg G) (update_freq : Z),
    length a = length X -> length r = length X ->
    (0 < length X)%nat -> sp <> SpOther ->
    evaluateRejectionSampling ambient policy X (Arr1 a) (Arr1 r)
      false partial_fit_flag sp random_state update_freq
    = Ok (np_mean (matching_rewards (fst (predict policy X)) a r),
          Z.of_nat (length (matching_rewards (fst (predict policy X)) a r))).
Proof.
  intros ambient policy X a r pf sp rs uf Ha Hr Hn Hsp.
  unfold evaluateRejectionSampling.
  rewrite check_fit_input_ok by assumption. simpl.
  destruct (resolve_start_point_ok ambient (length X) sp rs Hn Hsp)
    as [start ->]. simpl.
  destruct (match_mask_rows (fst (predict policy X)) a r) as [Hv Hc];
    try (rewrite predict_length; assumption).
  now rewrite Hv, Hc.
Qed.

(** C5.  Offline, on arrays of one length and with a supported
    [start_point_online], if at least one prediction is the logged
    action then [evaluateRejectionSampling] returns the mean of [r] over
    the matching rows and the number of matching rows. *)
Theorem evaluateRejectionSampling_offline_mean_and_count :
  forall (ambient : G) (policy : S) (X : matrix) (a : list Z) (r : list Q)
         (partial_fit_flag : bool) (sp : start_point_arg)
         (random_state : random_state_arg G) (update_freq : Z),
    length a = length X -> length r = length X -> sp <> SpOther ->
    matching_rewards (fst (predict policy X)) a r <> [] ->
    evaluateRejectionSampling ambient policy X (Arr1 a) (Arr1 r)
      false partial_fit_flag sp random_state update_freq
    = Ok (Val (np_sum (matching_rewards (fst (predict policy X)) a r)
               / inject_Z (Z.of_nat
                   (length (matching_rewards (fst (predict policy X)) a r)))),
          Z.of_nat (length (matching_rewards (fst (predict policy X)) a r))).
Proof.
  intros ambient policy X a r pf sp rs uf Ha Hr Hsp Hm.
  assert (Hn : (0 < length X)%nat).
  { destruct X as [|x X]; [ | simpl; lia ].
    exfalso. apply Hm.
    pose proof (predict_length policy []) as Hl.
    destruct (fst (predict policy [])); [ reflexivity | discriminate ]. }
  rewrite evaluateRejectionSampling_offline by assumption.
  destruct (matching_rewards (fst (predict policy X)) a r) as [|m ms];
    [ contradiction | reflexivity ].
Qed.

End RejectionSampling.

(** C2.  One row, logged action 0, a policy that predicts 5: no row
    matches.  Offline, [evaluateRejectionSampling] returns [(nan, 0)];
    online, on the same data, it raises the [ValueError] for the absence
    of matching samples. *)
Theorem evaluateRejectionSampling_offline_no_match_returns_nan :
  evaluateRejectionSampling 0%Z 0%nat [[5]] (Arr1 [0%Z]) (Arr1 [1])
    false false SpRandom (RsSeed 1) 10
  = Ok (NaN, 0%Z)
  /\ evaluateRejectionSampling 0%Z 0%nat [[5]] (Arr1 [0%Z]) (Arr1 [1])
       true false SpRandom (RsSeed 1) 10
     = Raise (ValueError no_match_msg).
Proof.
  split; reflexivity.
Qed.

(** ** Python indexing, in range *)

Lemma py_getitem_in_range {A : Type} (xs : list A) (i : Z) :
  in_range xs i ->
  exists x, py_getitem xs i = Ok x /\ nth_error xs (Z.to_nat i) = Some x.
Proof.
  unfold in_range, py_getitem. intros Hi.
  destruct (Z.ltb_spec i 0); [ lia | ].
  destruct (Z.leb_spec 0 i); [ | lia ].
  destruct (Z.ltb_spec i (Z.of_nat (length xs))); [ | lia ].
  simpl.
  destruct (nth_error xs (Z.to_nat i)) eqn:E; [ eexists; split; reflexivity | ].
  apply nth_error_None in E. lia.
Qed.

Lemma np_take_in_range {A : Type} (xs : list A) (ix : list Z) :
  Forall (in_range xs) ix -> exists ys, np_take xs ix = Ok ys.
Proof.
  unfold np_take. induction 1 as [|i ix Hi _ IH]; simpl.
  - eexists; reflexivity.
  - destruct (py_getitem_in_range xs i Hi) as [x [-> _]].
    destruct IH as [ys ->]. simpl. eexists; reflexivity.
Qed.

Lemma in_range_same_length {A B : Type} (xs : list A) (ys : list B) (i : Z) :
  length ys = length xs -> in_range xs i -> in_range ys i.
Proof. unfold in_range. intros ->. trivial. Qed.

Lemma py_range_in_range {A : Type} (xs : list A) (lo hi : Z) :
  (0 <= lo)%Z -> (hi <= Z.of_nat (length xs))%Z ->
  Forall (in_range xs) (py_range lo hi).
Proof.
  intros Hlo Hhi. unfold py_range. apply Forall_forall. intros i Hi.
  apply in_map_iff in Hi. destruct Hi as [k [<- Hk]].
  apply in_seq in Hk. unfold in_range. lia.
Qed.

Lemma length_py_range (lo hi : Z) :
  length (py_range lo hi) = Z.to_nat (hi - lo).
Proof. unfold py_range. now rewrite length_map, length_seq. Qed.

Lemma py_range_split (s n : Z) :
  (0 <= s <= n)%Z -> py_range 0 n = py_range 0 s ++ py_range s n.
Proof.
  intros Hs. unfold py_range. rewrite !Z.sub_0_r.
  replace (Z.to_nat n) with (Z.to_nat s + Z.to_nat (n - s))%nat by lia.
  rewrite seq_app, map_app. f_equal. simpl.
  generalize (Z.to_nat (n - s)) as k. intros k.
  replace (Z.to_nat s) with (Z.to_nat s + 0)%nat at 1 by lia.
  generalize 0%nat as start. induction k as [|k IH]; intros start; simpl.
  - reflexivity.
  - rewrite <- IH, Nat.add_succ_r. f_equal. lia.
Qed.

(** [range(s, n)] followed by [range(0, s)] visits [0 .. n-1] once each. *)
Lemma py_range_wrap_around (s n : Z) :
  (0 <= s <= n)%Z ->
  Permutation (py_range s n ++ py_range 0 s) (py_range 0 n).
Proof.
  intros Hs. rewrite (py_range_split s n Hs). apply Permutation_app_comm.
Qed.

Lemma slice_stop_rev_last_chunk {A : Type} (l : list A) (k : Z) :
  (0 < k)%Z -> l <> [] ->
  slice_stop_rev l (- (k + 1)) <> []
  /\ (forall x, In x (slice_stop_rev l (- (k + 1))) -> In x l).
Proof.
  intros Hk Hl. unfold slice_stop_rev.
  destruct (Z.ltb_spec (- (k + 1)) 0); [ | lia ].
  set (m := Z.to_nat (Z.max (- (k + 1) + Z.of_nat (length l)) (-1) + 1)).
  assert (Hm : (m < length l)%nat).
  { destruct l; [ contradiction | ]. subst m. simpl length. lia. }
  split.
  - intros E. apply (f_equal (@length A)) in E.
    rewrite length_rev, length_skipn in E. simpl in E. lia.
  - intros x Hx. apply in_rev in Hx.
    rewrite <- (firstn_skipn m l). apply in_or_app. now right.
Qed.

(** ** The online loop when every prediction is the logged action *)

Section OnlineAcceptsAll.

Context {S G : Type} `{Policy S} `{Generator G}.

Variables (X : matrix) (a : list Z) (r : list Q).
Variables (partial_fit_flag : bool) (update_freq : Z).

(** A property of the policy's state that refitting preserves and under
    which the policy predicts, for each row of the dataset, the action
    logged for it. *)
Variable refitted : S -> Prop.

Hypothesis length_a : length a = length X.
Hypothesis length_r : length r = length X.
Hypothesis update_freq_pos : (0 < update_freq)%Z.
Hypothesis refitted_fit :
  forall st Xf af rf, refitted st -> refitted (fit st Xf af rf).
Hypothesis refitted_partial_fit :
  forall st Xf af rf, refitted st -> refitted (partial_fit st Xf af rf).
Hypothesis predicts_logged :
  forall st i x ai,
    refitted st -> nth_error X i = Some x -> nth_error a i = Some ai ->
    fst (predict st [x]) = [ai] /\ refitted (snd (predict st [x])).

Lemma rs_refit_in_range (ix : list Z) (pol : S) :
  ix <> [] -> Forall (in_range X) ix -> refitted pol ->
  exists pol',
    rs_refit partial_fit_flag update_freq X a r ix pol = Ok pol'
    /\ refitted pol'.
Proof.
  intros Hne Hix Hpol. unfold rs_refit.
  set (ix_fit := if negb partial_fit_flag then ix
                 else slice_stop_rev ix (- (update_freq + 1))).
  assert (Hfit : ix_fit <> [] /\ Forall (in_range X) ix_fit).
  { subst ix_fit. destruct partial_fit_flag; simpl; [ | now split ].
    destruct (slice_stop_rev_last_chunk ix update_freq update_freq_pos Hne)
      as [Hn Hin].
    split; [ assumption | ].
    apply Forall_forall. intros i Hi.
    rewrite Forall_forall in Hix. auto. }
  destruct Hfit as [Hn Hr].
  destruct ix_fit as [|i0 ix_fit]; [ contradiction | ].
  destruct (np_take_in_range X _ Hr) as [Xf ->].
  destruct (np_take_in_range a (i0 :: ix_fit)) as [af ->].
  { eapply Forall_impl; [ | exact Hr ].
    intros i. now apply in_range_same_length. }
  destruct (np_take_in_range r (i0 :: ix_fit)) as [rf ->].
  { eapply Forall_impl; [ | exact Hr ].
    intros i. now apply in_range_same_length. }
  simpl. eexists; split; [ reflexivity | ].
  destruct partial_fit_flag; simpl; auto.
Qed.

(** An iteration on a row in range accepts the row. *)
Lemma rs_step_accepts (st : rs_state) (i : Z) :
  in_range X i -> Forall (in_range X) (ix_chosen st) ->
  refitted (policy_state st) ->
  exists st',
    rs_step partial_fit_flag update_freq X a r st i = Ok st'
    /\ ix_chosen st' = ix_chosen st ++ [i]
    /\ cum_n st' = (cum_n st + 1)%Z
    /\ refitted (policy_state st').
Proof.
  intros Hi Hix Hpol. unfold rs_step.
  destruct (py_getitem_in_range X i Hi) as [x [Ex Nx]]. rewrite Ex. simpl.
  destruct (py_getitem_in_range a i) as [ai [Ea Na]].
  { now apply (in_range_same_length X). }
  destruct (py_getitem_in_range r i) as [ri [Er _]].
  { now apply (in_range_same_length X). }
  destruct (predicts_logged (policy_state st) _ x ai Hpol Nx Na)
    as [Hpred Hpol'].
  destruct (predict (policy_state st) [x]) as [preds pol]. simpl in *.
  subst preds. cbn [py_getitem length nth_error Z.to_nat]. simpl.
  rewrite Ea. simpl. rewrite Z.eqb_refl, Er. simpl.
  destruct (Z.eqb_spec update_freq 0); [ lia | ].
  destruct ((cum_n st + 1) mod update_freq =? 0)%Z.
  - destruct (rs_refit_in_range (ix_chosen st ++ [i]) pol) as [pol' [-> Hp]].
    + now destruct (ix_chosen st).
    + apply Forall_app. split; [ assumption | now constructor ].
    + assumption.
    + simpl. eexists; repeat split; assumption.
  - eexists; repeat split; assumption.
Qed.

Lemma rs_for_accepts :
  forall (ixs : list Z) (st : rs_state),
    Forall (in_range X) ixs -> Forall (in_range X) (ix_chosen st) ->
    refitted (policy_state st) ->
    exists st',
      rs_for partial_fit_flag update_freq X a r st ixs = Ok st'
      /\ ix_chosen st' = ix_chosen st ++ ixs
      /\ cum_n st' = (cum_n st + Z.of_nat (length ixs))%Z
      /\ refitted (policy_state st').
Proof.
  induction ixs as [|i ixs IH]; intros st Hixs Hst Hpol; simpl.
  - exists st. rewrite app_nil_r, Z.add_0_r. auto.
  - inversion Hixs as [|? ? Hi Hixs']; subst.
    destruct (rs_step_accepts st i Hi Hst Hpol) as [st1 [-> [E1 [N1 P1]]]].
    simpl.
    destruct (IH st1 Hixs') as [st2 [-> [E2 [N2 P2]]]]; [ | assumption | ].
    { rewrite E1. apply Forall_app. split; [ assumption | now constructor ]. }
    exists st2. rewrite E2, E1, N2, N1, <- app_assoc.
    repeat split; [ lia | assumption ].
Qed.

(** C6.  Online, on a dataset of [n] rows, with a positive
    [update_freq] and a policy that predicts the logged action of every
    row in every state its refitting reaches, the two loops started at
    any index [s] of [[0, n)] accept the rows [s .. n-1] and then
    [0 .. s-1], each row once, and [evaluateRejectionSampling] returns
    the count [n]. *)
Theorem evaluateRejectionSampling_online_accepts_every_row :
  forall (ambient : G) (policy : S) (random_state : random_state_arg G)
         (s : Z),
    refitted policy -> (0 <= s < Z.of_nat (length X))%Z ->
    exists st,
      rs_online_loops policy X a r partial_fit_flag (StartInt s) update_freq
      = Ok st
      /\ ix_chosen st = py_range s (Z.of_nat (length X)) ++ py_range 0 s
      /\ Permutation (ix_chosen st) (py_range 0 (Z.of_nat (length X)))
      /\ evaluateRejectionSampling ambient policy X (Arr1 a) (Arr1 r)
           true partial_fit_flag (SpInt s) random_state update_freq
         = Ok (Val (cum_r st / inject_Z (Z.of_nat (length X))),
               Z.of_nat (length X)).
Proof.
  intros ambient policy random_state s Hpol Hs.
  set (n := Z.of_nat (length X)) in *.
  set (st0 := mk_rs_state 0 0 []
                (fit policy (firstn 0 X) (firstn 0 a) (firstn 0 r))).
  destruct (rs_for_accepts (py_range s n) st0) as [st1 [E1 [I1 [N1 P1]]]].
  { apply py_range_in_range; subst n; lia. }
  { constructor. }
  { apply refitted_fit, Hpol. }
  destruct (rs_for_accepts (py_range 0 s) st1) as [st2 [E2 [I2 [N2 P2]]]].
  { apply py_range_in_range; subst n; lia. }
  { rewrite I1. simpl. apply py_range_in_range; subst n; lia. }
  { assumption. }
  assert (Eloops : rs_online_loops policy X a r partial_fit_flag
                     (StartInt s) update_freq = Ok st2).
  { unfold rs_online_loops. fold n. fold st0. rewrite E1. simpl. exact E2. }
  assert (Ecount : cum_n st2 = n).
  { rewrite N2, N1, !length_py_range. simpl. lia. }
  exists st2. split; [ exact Eloops | ].
  split; [ now rewrite I2, I1 | ].
  split.
  { rewrite I2, I1. simpl. apply py_range_wrap_around. lia. }
  unfold evaluateRejectionSampling.
  rewrite check_fit_input_ok by assumption.
  cbn [bind resolve_start_point negb]. rewrite Eloops.
  cbn [bind]. rewrite Ecount.
  destruct (Z.eqb_spec n 0); [ lia | reflexivity ].
Qed.

End OnlineAcceptsAll.

(** The online loops on three rows that an oracle policy predicts, started
    at index 1 with a refit every second acceptance. *)
Lemma evaluateRejectionSampling_online_accepts_every_row_witness :
  exists st,
    rs_online_loops 0%nat [[1]; [0]; [2]] [1; 0; 2]%Z [1; 0; 1] true
      (StartInt 1) 2 = Ok st
    /\ ix_chosen st = py_range 1 3 ++ py_range 0 1
    /\ Permutation (ix_chosen st) (py_range 0 3)
    /\ evaluateRejectionSampling 0%Z 0%nat [[1]; [0]; [2]]
         (Arr1 [1; 0; 2]%Z) (Arr1 [1; 0; 1]) true true (SpInt 1)
         (RsSeed 1) 2
       = Ok (Val (cum_r st / inject_Z 3), 3%Z).
Proof.
  apply (evaluateRejectionSampling_online_accepts_every_row
           [[1]; [0]; [2]] [1; 0; 2]%Z [1; 0; 1] true 2 (fun _ => True)).
  - reflexivity.
  - reflexivity.
  - lia.
  - trivial.
  - trivial.
  - intros st [|[|[|i]]] x ai _ Hx Ha; simpl in Hx, Ha;
      try (destruct i; discriminate);
      injection Hx as <-; injection Ha as <-;
      (split; [ reflexivity | trivial ]).
  - trivial.
  - simpl. lia.
Defined.

(** ** The doubly-robust estimator *)

(** The masked in-place correction, read row by row. *)
Lemma masked_correction_rows :
  forall (rhat_new rhat_old : list Q) (m : list bool) (r p : list Q),
    length rhat_old = length rhat_new -> length m = length rhat_new ->
    length r = length rhat_new -> length p = length rhat_new ->
    masked_assign rhat_new m
      (np_add (select m rhat_new)
              (np_div (np_sub (select m r) (select m rhat_old)) (select m p)))
    = dr_corrected rhat_new rhat_old m r p.
Proof.
  unfold np_add, np_div, np_sub.
  induction rhat_new as [|rn rhat_new IH];
    intros [|ro rhat_old] [|b m] [|ri r] [|pi p] Ho Hm Hr Hp;
    try discriminate; simpl in *.
  - reflexivity.
  - injection Ho as Ho. injection Hm as Hm.
    injection Hr as Hr. injection Hp as Hp.
    destruct b; simpl; f_equal; now apply IH.
Qed.

Lemma length_dr_corrected :
  forall (rhat_new rhat_old : list Q) (m : list bool) (r p : list Q),
    length rhat_old = length rhat_new -> length m = length rhat_new ->
    length r = length rhat_new -> length p = length rhat_new ->
    length (dr_corrected rhat_new rhat_old m r p) = length rhat_new.
Proof.
  induction rhat_new as [|rn rhat_new IH];
    intros [|ro rhat_old] [|b m] [|ri r] [|pi p] Ho Hm Hr Hp;
    try discriminate; simpl in *.
  - reflexivity.
  - f_equal. apply IH; congruence.
Qed.

Lemma length_zip_with {A B C : Type} (f : A -> B -> C) :
  forall (xs : list A) (ys : list B),
    length ys = length xs -> length (zip_with f xs ys) = length xs.
Proof.
  induction xs as [|x xs IH]; intros [|y ys] Hl; try discriminate; simpl.
  - reflexivity.
  - f_equal. apply IH. now injection Hl.
Qed.

Lemma map_fst_combine {A B : Type} :
  forall (xs : list A) (ys : list B),
    length xs = length ys -> map fst (combine xs ys) = xs.
Proof.
  induction xs as [|x xs IH]; intros [|y ys] Hl; try discriminate; simpl.
  - reflexivity.
  - f_equal. apply IH. now injection Hl.
Qed.

Lemma map_snd_combine {A B : Type} :
  forall (xs : list A) (ys : list B),
    length xs = length ys -> map snd (combine xs ys) = ys.
Proof.
  induction xs as [|x xs IH]; intros [|y ys] Hl; try discriminate; simpl.
  - reflexivity.
  - f_equal. apply IH. now injection Hl.
Qed.

Lemma length_dr_propensities (c pmin : option Q) (p : list Q) :
  length (dr_propensities c pmin p) = length p.
Proof.
  unfold dr_propensities, clip_below, rescale, np_clip_min.
  destruct c, pmin; now rewrite ?length_map.
Qed.

Section DoublyRobust.

Context {G R C : Type}.
Context `{Generator G} `{RewardModel R C G}.

(** A write through a reference leaves the caller's [p] as it is. *)
Lemma p_buf_write (h : store) (x : array_ref) (v : list Q) :
  p_buf (fst (write h x v)) = p_buf h.
Proof. destruct x as [[|]|]; reflexivity. Qed.

Lemma p_buf_impute_invalid (rs : G) (h : store) (x : array_ref) :
  p_buf (snd (fst (impute_invalid rs h x))) = p_buf h.
Proof.
  unfold impute_invalid.
  destruct (beta rs 3 1 _) as [draws1 rs1].
  destruct (write h x _) as [h1 x1] eqn:E1.
  destruct (beta rs1 1 3 _) as [draws0 rs2].
  destruct (write h1 x1 _) as [h2 x2] eqn:E2. simpl.
  apply (f_equal fst) in E1, E2. simpl in E1, E2. subst h1 h2.
  now rewrite !p_buf_write.
Qed.

Lemma p_buf_dr_estimate (rs : G) (h : store) (rhat_new rhat_old : array_ref)
  (pred a : list Z) (r p : list Q) (handle_invalid : bool) (c pmin : option Q) :
  p_buf (snd (dr_estimate rs h rhat_new rhat_old pred a r p
                handle_invalid c pmin)) = p_buf h.
Proof.
  unfold dr_estimate. destruct handle_invalid.
  - pose proof (p_buf_impute_invalid rs h rhat_new) as P1.
    destruct (impute_invalid rs h rhat_new) as [[rs1 h1] rn]. simpl in P1.
    pose proof (p_buf_impute_invalid rs1 h1 rhat_old) as P2.
    destruct (impute_invalid rs1 h1 rhat_old) as [[rs2 h2] ro]. simpl in P2.
    match goal with
    | |- context [write ?hh ?x ?v] =>
        pose proof (p_buf_write hh x v) as P3;
        destruct (write hh x v) as [h3 out]
    end.
    simpl in *. congruence.
  - match goal with
    | |- context [write ?hh ?x ?v] =>
        pose proof (p_buf_write hh x v) as P3;
        destruct (write hh x v) as [h3 out]
    end.
    simpl in *. congruence.
Qed.

(** The estimate on the caller's array without imputation: the value is
    the mean of the corrected rows, and the corrected rows are what the
    call leaves in the first column of the caller's array. *)
Lemma dr_estimate_on_views (rs : G) (h : store)
  (pred a : list Z) (r p : list Q) (c pmin : option Q) :
  length pred = length (reward_estimator_buf h) ->
  length a = length (reward_estimator_buf h) ->
  length r = length (reward_estimator_buf h) ->
  length p = length (reward_estimator_buf h) ->
  let rows :=
    dr_corrected (map fst (reward_estimator_buf h))
                 (map snd (reward_estimator_buf h))
                 (zip_with Z.eqb pred a) r (dr_propensities c pmin p) in
  dr_estimate rs h (ColumnView false) (ColumnView true) pred a r p
    false c pmin
  = (np_mean rows,
     mk_store (combine rows (map snd (reward_estimator_buf h))) (p_buf h)).
Proof.
  intros Hpred Ha Hr Hp rows. unfold dr_estimate. cbn [read write].
  assert (Hrows : length rows = length (reward_estimator_buf h)).
  { subst rows. rewrite length_dr_corrected;
      rewrite ?length_map, ?length_dr_propensities, ?length_zip_with;
      congruence. }
  rewrite masked_correction_rows;
    rewrite ?length_map, ?length_dr_propensities, ?length_zip_with;
    try congruence.
  fold rows. cbn [read reward_estimator_buf].
  rewrite map_fst_combine by (now rewrite length_map).
  reflexivity.
Qed.

Lemma dr_validate_on_array (ambient : G) (h : store)
  (pred a : list Z) (X : matrix) (r p : list Q) (nchoices : option Z)
  (random_state : random_state_arg G) :
  p_buf h = Arr1 p ->
  length (reward_estimator_buf h) = length X ->
  length pred = length X -> length a = length X ->
  length r = length X -> length p = length X ->
  dr_validate ambient h (Arr1 pred) X (Arr1 a) (Arr1 r)
    (@ReArray R C) nchoices random_state
  = Ok (pred, a, r, p, ColumnView false, ColumnView true,
        _check_random_state ambient random_state).
Proof.
  intros Hh Hbuf Hpred Ha Hr Hp. unfold dr_validate.
  rewrite check_fit_input_ok by assumption.
  cbn [bind]. rewrite Hh. cbn [_check_1d_inp bind].
  rewrite !py_assert_true by (apply Nat.eqb_eq; assumption).
  cbn [resolve_reward_estimator].
  rewrite !py_assert_true by (apply Nat.eqb_eq; assumption).
  reflexivity.
Qed.

(** The whole call on the caller's array, without imputation. *)
Lemma evaluateDoublyRobust_on_array (ambient : G) (h : store)
  (pred a : list Z) (X : matrix) (r p : list Q) (nchoices : option Z)
  (c pmin : option Q) (random_state : random_state_arg G) :
  p_buf h = Arr1 p ->
  length (reward_estimator_buf h) = length X ->
  length pred = length X -> length a = length X ->
  length r = length X -> length p = length X ->
  let rows :=
    dr_corrected (map fst (reward_estimator_buf h))
                 (map snd (reward_estimator_buf h))
                 (zip_with Z.eqb pred a) r (dr_propensities c pmin p) in
  evaluateDoublyRobust ambient h (Arr1 pred) X (Arr1 a) (Arr1 r)
    (@ReArray R C) nchoices false c pmin random_state
  = (Ok (np_mean rows),
     mk_store (combine rows (map snd (reward_estimator_buf h))) (p_buf h)).
Proof.
  intros Hh Hbuf Hpred Ha Hr Hp rows. unfold evaluateDoublyRobust.
  rewrite (dr_validate_on_array ambient h pred a X r p) by assumption.
  rewrite dr_estimate_on_views by congruence.
  reflexivity.
Qed.

(** C4 (amended).  No call of [evaluateDoublyRobust] modifies the
    caller's array [p]: rescaling and clipping bind [p] to new arrays.
    With [reward_estimator] passed as an n-by-2 array and
    [handle_invalid] off, the call does write into that array: its first
    column is left holding the corrected per-row values, its second
    column is left as it was. *)
Theorem evaluateDoublyRobust_store_effect :
  (forall (ambient : G) (h : store) (pred : ndarray Z) (X : matrix)
          (a : ndarray Z) (r : ndarray Q)
          (reward_estimator : reward_estimator_arg R C)
          (nchoices : option Z) (handle_invalid : bool) (c pmin : option Q)
          (random_state : random_state_arg G),
      p_buf (snd (evaluateDoublyRobust ambient h pred X a r reward_estimator
                    nchoices handle_invalid c pmin random_state))
      = p_buf h)
  /\ (forall (ambient : G) (h : store) (pred a : list Z) (X : matrix)
             (r p : list Q) (nchoices : option Z) (c pmin : option Q)
             (random_state : random_state_arg G),
         p_buf h = Arr1 p ->
         length (reward_estimator_buf h) = length X ->
         length pred = length X -> length a = length X ->
         length r = length X -> length p = length X ->
         let h' := snd (evaluateDoublyRobust ambient h (Arr1 pred) X (Arr1 a)
                          (Arr1 r) (@ReArray R C) nchoices false c pmin
                          random_state) in
         map fst (reward_estimator_buf h')
         = dr_corrected (map fst (reward_estimator_buf h))
                        (map snd (reward_estimator_buf h))
                        (zip_with Z.eqb pred a) r (dr_propensities c pmin p)
         /\ map snd (reward_estimator_buf h')
            = map snd (reward_estimator_buf h)).
Proof.
  split.
  - intros ambient h pred X a r re nchoices hi c pmin rs.
    unfold evaluateDoublyRobust.
    destruct (dr_validate ambient h pred X a r re nchoices rs)
      as [[[[[[[pred' a'] r'] p'] rn] ro] g]|e]; [ | reflexivity ].
    pose proof (p_buf_dr_estimate g h rn ro pred' a' r' p' hi c pmin) as P.
    destruct (dr_estimate g h rn ro pred' a' r' p' hi c pmin) as [est h'].
    exact P.
  - intros ambient h pred a X r p nchoices c pmin rs
           Hh Hbuf Hpred Ha Hr Hp h'.
    subst h'.
    rewrite (evaluateDoublyRobust_on_array ambient h pred a X r p)
      by assumption.
    cbn [snd reward_estimator_buf].
    assert (Hl : length (dr_corrected (map fst (reward_estimator_buf h))
                           (map snd (reward_estimator_buf h))
                           (zip_with Z.eqb pred a) r
                           (dr_propensities c pmin p))
                 = length (map snd (reward_estimator_buf h))).
    { rewrite length_dr_corrected;
        rewrite ?length_map, ?length_dr_propensities, ?length_zip_with;
        congruence. }
    split; [ now apply map_fst_combine | now apply map_snd_combine ].
Qed.

(** C9.  With both [c] and [pmin] given, the propensities that enter
    the correction are the caller's multiplied by [c] and then clipped:
    a product below [pmin] becomes [pmin], a product at or above [pmin]
    is kept; on the caller's array without imputation the estimate is
    the mean of the rows corrected with these propensities. *)
Theorem evaluateDoublyRobust_rescales_then_clips :
  forall (ambient : G) (h : store) (pred a : list Z) (X : matrix)
         (r p : list Q) (nchoices : option Z) (c pmin : Q)
         (random_state : random_state_arg G),
    p_buf h = Arr1 p ->
    length (reward_estimator_buf h) = length X ->
    length pred = length X -> length a = length X ->
    length r = length X -> length p = length X ->
    Forall (fun x => ~ x == 0) (map (clipped_propensity c pmin) p) ->
    dr_propensities (Some c) (Some pmin) p = map (clipped_propensity c pmin) p
    /\ (forall p_i, c * p_i < pmin -> clipped_propensity c pmin p_i = pmin)
    /\ (forall p_i, pmin <= c * p_i -> clipped_propensity c pmin p_i = c * p_i)
    /\ fst (evaluateDoublyRobust ambient h (Arr1 pred) X (Arr1 a) (Arr1 r)
              (@ReArray R C) nchoices false (Some c) (Some pmin) random_state)
       = Ok (np_mean
               (dr_corrected (map fst (reward_estimator_buf h))
                             (map snd (reward_estimator_buf h))
                             (zip_with Z.eqb pred a) r
                             (map (clipped_propensity c pmin) p))).
Proof.
  intros ambient h pred a X r p nchoices c pmin rs Hh Hbuf Hpred Ha Hr Hp _.
  assert (Hclip : dr_propensities (Some c) (Some pmin) p
                  = map (clipped_propensity c pmin) p).
  { unfold dr_propensities, clip_below, rescale, np_clip_min.
    rewrite map_map. reflexivity. }
  split; [ exact Hclip | ].
  split; [ | split ].
  - intros p_i Hlt. unfold clipped_propensity, Qltb.
    destruct (Qle_bool pmin (c * p_i)) eqn:E; [ | reflexivity ].
    apply Qle_bool_iff in E. exfalso. now apply (Qlt_not_le _ _ Hlt).
  - intros p_i Hle. unfold clipped_propensity, Qltb.
    apply Qle_bool_iff in Hle. now rewrite Hle.
  - rewrite (evaluateDoublyRobust_on_array ambient h pred a X r p)
      by assumption.
    cbn [fst]. now rewrite Hclip.
Qed.

Lemma fold_left_Qplus_Qeq :
  forall xs ys : list Q,
    Forall2 Qeq xs ys ->
    forall u v : Q, u == v -> fold_left Qplus xs u == fold_left Qplus ys v.
Proof.
  induction 1 as [|x y xs ys Hxy _ IH]; intros u v Huv; simpl.
  - exact Huv.
  - apply IH. now rewrite Hxy, Huv.
Qed.

Lemma np_mean_Qeq (xs ys : list Q) :
  Forall2 Qeq xs ys -> npfloat_eq (np_mean xs) (np_mean ys).
Proof.
  intros Hxy. pose proof (Forall2_length Hxy) as Hl.
  destruct xs as [|x xs], ys as [|y ys]; try discriminate; [ exact I | ].
  unfold np_mean, npfloat_eq. rewrite Hl.
  apply Qdiv_comp; [ | reflexivity ].
  unfold np_sum. now apply fold_left_Qplus_Qeq.
Qed.

(** Clipping at a bound that no propensity is below changes nothing. *)
Lemma clip_below_above (pmin : option Q) (p : list Q) :
  (forall pm, pmin = Some pm -> Forall (fun x => pm <= x) p) ->
  dr_propensities None pmin p = p.
Proof.
  intros Hp. unfold dr_propensities, rescale, clip_below.
  destruct pmin as [pm|]; [ | reflexivity ].
  specialize (Hp pm eq_refl). unfold np_clip_min.
  induction Hp as [|x p Hx _ IH]; simpl; [ reflexivity | ].
  rewrite IH. f_equal. unfold clip_min, Qltb.
  apply Qle_bool_iff in Hx. now rewrite Hx.
Qed.

(** With zero estimates the corrected rows are the inverse-propensity
    rows. *)
Lemma dr_corrected_zero_estimates :
  forall (pred a : list Z) (r p : list Q) (n : nat),
    length pred = n -> length a = n -> length r = n -> length p = n ->
    Forall2 Qeq
      (dr_corrected (repeat 0 n) (repeat 0 n) (zip_with Z.eqb pred a) r p)
      (ips_rows (repeat 0 n) pred a r p).
Proof.
  induction pred as [|pi pred IH]; intros [|ai a] [|ri r] [|qi p] n
    Hpred Ha Hr Hp; subst n; try discriminate; simpl in *.
  - constructor.
  - constructor.
    + unfold match_indicator. destruct (pi =? ai)%Z.
      * unfold Qminus, Qdiv. now rewrite Qplus_0_r, Qmult_1_r.
      * now rewrite Qmult_0_r, Qplus_0_r.
    + apply IH; congruence.
Qed.

(** C8.  With [handle_invalid] off, no rescaling, an n-by-2 array of
    zeros as [reward_estimator] and non-zero propensities none of which
    is below [pmin], [evaluateDoublyRobust] returns the mean over all
    rows of [rhat_new_i + (r_i/p_i) * [pred_i == a_i]]. *)
Theorem evaluateDoublyRobust_zero_estimates_is_ips :
  forall (ambient : G) (pred a : list Z) (X : matrix) (r p : list Q)
         (nchoices : option Z) (pmin : option Q)
         (random_state : random_state_arg G),
    length pred = length X -> length a = length X ->
    length r = length X -> length p = length X ->
    Forall (fun x => ~ x == 0) p ->
    (forall pm, pmin = Some pm -> Forall (fun x => pm <= x) p) ->
    exists est,
      fst (evaluateDoublyRobust ambient
             (mk_store (repeat (0, 0) (length X)) (Arr1 p))
             (Arr1 pred) X (Arr1 a) (Arr1 r) (@ReArray R C) nchoices
             false None pmin random_state)
      = Ok est
      /\ npfloat_eq est
           (np_mean (ips_rows (repeat 0 (length X)) pred a r p)).
Proof.
  intros ambient pred a X r p nchoices pmin rs Hpred Ha Hr Hp _ Hmin.
  rewrite (evaluateDoublyRobust_on_array ambient _ pred a X r p);
    cbn [p_buf reward_estimator_buf]; rewrite ?repeat_length; trivial.
  cbn [fst]. eexists. split; [ reflexivity | ].
  rewrite clip_below_above by assumption.
  apply np_mean_Qeq.
  rewrite !map_repeat. cbn [fst snd].
  now apply dr_corrected_zero_estimates.
Qed.

End DoublyRobust.

(** C4 (as stated).  One row whose propensity lies below [pmin], so that
    clipping does change the propensity that is used: the call writes
    the corrected value into the caller's reward-estimate array, and the
    caller's [p] is the same array after the call as before. *)
Lemma evaluateDoublyRobust_leaves_caller_p :
  let h := mk_store [(0, 0)] (Arr1 [1 # 1000000]) in
  let h' :=
    snd (evaluateDoublyRobust (R := unit) (C := unit) 0%Z h
           (Arr1 [1%Z]) [[0]] (Arr1 [1%Z]) (Arr1 [1]) ReArray None
           false None (Some (1 # 100000)) (RsSeed 1)) in
  dr_propensities None (Some (1 # 100000)) [1 # 1000000] = [1 # 100000]
  /\ reward_estimator_buf h' <> reward_estimator_buf h
  /\ p_buf h' = p_buf h
  /\ ~ (reward_estimator_buf h' <> reward_estimator_buf h
        /\ p_buf h' <> p_buf h).
Proof.
  cbv zeta. repeat split.
  - vm_compute. discriminate.
  - intros [_ Hp]. apply Hp. reflexivity.
Qed.

(** Two rows, the first matching: what the call leaves in the caller's
    array. *)
Lemma evaluateDoublyRobust_store_effect_witness :
  let h := mk_store [(1 # 2, 1 # 4); (1 # 3, 0)] (Arr1 [1 # 2; 1 # 2]) in
  let h' :=
    snd (evaluateDoublyRobust (R := unit) (C := unit) 0%Z h
           (Arr1 [1; 0]%Z) [[0]; [0]] (Arr1 [1; 1]%Z) (Arr1 [1; 0])
           ReArray None false None (Some (1 # 100000)) (RsSeed 1)) in
  map fst (reward_estimator_buf h')
  = dr_corrected [1 # 2; 1 # 3] [1 # 4; 0] [true; false] [1; 0]
      (dr_propensities None (Some (1 # 100000)) [1 # 2; 1 # 2])
  /\ map snd (reward_estimator_buf h') = [1 # 4; 0].
Proof.
  apply (proj2 (evaluateDoublyRobust_store_effect (R := unit) (C := unit))
           0%Z (mk_store [(1 # 2, 1 # 4); (1 # 3, 0)] (Arr1 [1 # 2; 1 # 2]))
           [1; 0]%Z [1; 1]%Z [[0]; [0]] [1; 0] [1 # 2; 1 # 2]);
    reflexivity.
Defined.

(** Two rows with [c = 2] and [pmin = 1/100]: the first product is
    clipped, the second is not. *)
Lemma evaluateDoublyRobust_rescales_then_clips_witness :
  dr_propensities (Some 2) (Some (1 # 100)) [1 # 1000; 1 # 4]
  = map (clipped_propensity 2 (1 # 100)) [1 # 1000; 1 # 4]
  /\ (forall p_i, 2 * p_i < 1 # 100 ->
                  clipped_propensity 2 (1 # 100) p_i = 1 # 100)
  /\ (forall p_i, 1 # 100 <= 2 * p_i ->
                  clipped_propensity 2 (1 # 100) p_i = 2 * p_i)
  /\ fst (evaluateDoublyRobust (R := unit) (C := unit) 0%Z
            (mk_store [(1 # 2, 1 # 4); (1 # 3, 0)]
                      (Arr1 [1 # 1000; 1 # 4]))
            (Arr1 [1; 0]%Z) [[0]; [0]] (Arr1 [1; 0]%Z) (Arr1 [1; 0])
            ReArray None false (Some 2) (Some (1 # 100)) (RsSeed 1))
     = Ok (np_mean
             (dr_corrected [1 # 2; 1 # 3] [1 # 4; 0]
                (zip_with Z.eqb [1; 0]%Z [1; 0]%Z) [1; 0]
                (map (clipped_propensity 2 (1 # 100)) [1 # 1000; 1 # 4]))).
Proof.
  apply (evaluateDoublyRobust_rescales_then_clips (R := unit) (C := unit)
           0%Z (mk_store [(1 # 2, 1 # 4); (1 # 3, 0)]
                         (Arr1 [1 # 1000; 1 # 4]))
           [1; 0]%Z [1; 0]%Z [[0]; [0]] [1; 0] [1 # 1000; 1 # 4]);
    try reflexivity.
  repeat constructor; vm_compute; discriminate.
Defined.

(** Four rows, two of them matching, with zero estimates. *)
Lemma evaluateDoublyRobust_zero_estimates_is_ips_witness :
  exists est,
    fst (evaluateDoublyRobust (R := unit) (C := unit) 0%Z
           (mk_store (repeat (0, 0) 4)
                     (Arr1 [1 # 2; 1 # 4; 1 # 2; 1 # 5]))
           (Arr1 [0; 1; 1; 0]%Z) [[0]; [0]; [0]; [0]]
           (Arr1 [0; 0; 1; 1]%Z) (Arr1 [1; 1; 0; 1]) ReArray None
           false None (Some (1 # 100000)) (RsSeed 1))
    = Ok est
    /\ npfloat_eq est
         (np_mean (ips_rows (repeat 0 4) [0; 1; 1; 0]%Z [0; 0; 1; 1]%Z
                     [1; 1; 0; 1] [1 # 2; 1 # 4; 1 # 2; 1 # 5])).
Proof.
  apply (evaluateDoublyRobust_zero_estimates_is_ips (R := unit) (C := unit)
           0%Z [0; 1; 1; 0]%Z [0; 0; 1; 1]%Z [[0]; [0]; [0]; [0]]
           [1; 1; 0; 1] [1 # 2; 1 # 4; 1 # 2; 1 # 5]);
    try reflexivity.
  - repeat constructor; vm_compute; discriminate.
  - intros pm E. injection E as <-.
    repeat constructor; vm_compute; discriminate.
Defined.

(** Three rows, the third with a ratio above the cap. *)
Lemma evaluateDoublyRobustSimplified_mean_of_kept_rows_witness :
  evaluateDoublyRobustSimplified (Arr1 [1; 1 # 2; 300])
    [[0]; [0]; [0]] (Arr1 [1; 0; 1]) (Arr1 [1 # 2; 1 # 2; 1])
    (1 # 100000000) 100
  = match kept_rows (1 # 100000000) 100 [1; 1 # 2; 300] [1; 0; 1]
            [1 # 2; 1 # 2; 1] with
    | [] => Raise (ValueError no_cases_msg)
    | rows => Ok (Val (drs_mean (1 # 100000000) rows))
    end
  /\ Forall (fun row => let '(e, _, pi) := row in
                        importance_weight (1 # 100000000) e pi <= 100)
            (kept_rows (1 # 100000000) 100 [1; 1 # 2; 300] [1; 0; 1]
               [1 # 2; 1 # 2; 1]).
Proof.
  apply (evaluateDoublyRobustSimplified_mean_of_kept_rows
           [1; 1 # 2; 300] [1; 0; 1] [1 # 2; 1 # 2; 1] [[0]; [0]; [0]]);
    try reflexivity.
  repeat constructor; vm_compute; discriminate.
Defined.

(** Three rows, two of which the oracle policy matches. *)
Lemma evaluateRejectionSampling_offline_mean_and_count_witness :
  evaluateRejectionSampling 0%Z 0%nat [[1]; [0]; [1]]
    (Arr1 [1; 1; 1]%Z) (Arr1 [1; 1; 0]) false false SpRandom (RsSeed 1) 10
  = Ok (Val (np_sum (matching_rewards (fst (predict 0%nat [[1]; [0]; [1]]))
                       [1; 1; 1]%Z [1; 1; 0])
             / inject_Z (Z.of_nat
                 (length (matching_rewards
                            (fst (predict 0%nat [[1]; [0]; [1]]))
                            [1; 1; 1]%Z [1; 1; 0])))),
        Z.of_nat (length (matching_rewards
                            (fst (predict 0%nat [[1]; [0]; [1]]))
                            [1; 1; 1]%Z [1; 1; 0]))).
Proof.
  apply (evaluateRejectionSampling_offline_mean_and_count
           0%Z 0%nat [[1]; [0]; [1]] [1; 1; 1]%Z [1; 1; 0]);
    try reflexivity; discriminate.
Defined.

(** ** Seeded randomness *)

Section Determinism.

Context {S G R C : Type}.
Context `{Policy S} `{Generator G} `{RewardModel R C G}.








End Determinism.

(** ** The fully-labeled simulator *)

Section FullyLabeled.

Context {S G : Type}.
Context `{Policy S} `{Generator G}.

(** C3.  Whenever [update_freq] is an [int] that is not a [bool], the
    default 50 included, [evaluateFullyLabeled] raises
    [AssertionError], and the policy and the two arrays of the caller
    are after the call what they were before it: nothing has been
    shuffled, fitted or predicted. *)
Theorem evaluateFullyLabeled_int_update_freq_asserts :
  forall (ambient : G) (w : fl_world (S := S)) (online shuffle_flag : pyval)
         (update_freq : Z) (random_state : random_state_arg G),
    evaluateFullyLabeled ambient w online shuffle_flag (PyInt update_freq)
      random_state
    = (Raise AssertionError, w).
Proof.
  intros ambient w online shuffle_flag k rs.
  unfold evaluateFullyLabeled, fl_validate.
  destruct (fl_X w) as [mx|mx|], (fl_y_onehot w) as [my|my|],
           online as [bo|io|], shuffle_flag as [bs|js|];
    reflexivity.
Qed.

End FullyLabeled.

(** Without a seed the start point is the ambient generator's. *)
Remark unseeded_start_point_is_ambient :
  resolve_start_point 0%Z 2 SpRandom RsNone = Ok (StartInt 1)
  /\ resolve_start_point 1%Z 2 SpRandom RsNone = Ok (StartInt 0).
Proof. split; reflexivity. Qed.

(** With a [bool] for [update_freq] the assertions pass: the policy is
    fitted on the seed batch, and the loop header raises [NameError]. *)
Remark evaluateFullyLabeled_bool_update_freq :
  evaluateFullyLabeled 0%Z
    (mk_fl_world 0%nat (NdArrayObj [[1]; [2]]) (NdArrayObj [[1; 0]; [0; 1]]))
    (PyBool false) (PyBool true) (PyBool true) (RsSeed 1)
  = (Raise (NameError "features"),
     mk_fl_world 1%nat (NdArrayObj [[1]; [2]]) (NdArrayObj [[1; 0]; [0; 1]])).
Proof. reflexivity. Qed.

(** * Further properties of the evaluators *)

(** ** The capped estimators *)

(** [evaluateDoublyRobustSimplified] on flat arrays of one length. *)
Lemma evaluateDoublyRobustSimplified_rows
  (est r p : list Q) (X : matrix) (cmin cmax : Q) :
  length est = length X -> length r = length X -> length p = length X ->
  evaluateDoublyRobustSimplified (Arr1 est) X (Arr1 r) (Arr1 p) cmin cmax =
    match kept_rows cmin cmax est r p with
    | [] => Raise (ValueError no_cases_msg)
    | rows => Ok (Val (drs_mean cmin rows))
    end.
Proof.
  intros He Hr Hp.
  unfold evaluateDoublyRobustSimplified. simpl.
  rewrite !py_assert_true by (apply Nat.eqb_eq; assumption).
  rewrite check_fit_input_ok by (rewrite ?length_np_zeros; congruence).
  simpl.
  destruct (capped_pipeline_rows cmin cmax est r p) as [Hv Hc]; try congruence.
  simpl in Hv, Hc. rewrite Hv, Hc.
  destruct (kept_rows cmin cmax est r p) as [|row rows].
  - reflexivity.
  - cbn [length Nat.eqb map]. rewrite np_mean_cons.
    unfold drs_mean. cbn [map]. now rewrite !length_cons, length_map.
Qed.

Lemma clip_min_lower (lo x : Q) : lo <= clip_min lo x.
Proof.
  unfold clip_min, Qltb.
  destruct (Qle_bool lo x) eqn:E; simpl.
  - now apply Qle_bool_iff.
  - apply Qle_refl.
Qed.

Lemma kept_rows_inverted_caps (cmin cmax : Q) :
  cmax < cmin -> forall est r p, kept_rows cmin cmax est r p = [].
Proof.
  intros Hc. induction est as [|e est IH]; intros [|ri r] [|pi p]; simpl;
    try reflexivity.
  destruct (Qle_bool (importance_weight cmin e pi) cmax) eqn:E; [ | apply IH ].
  apply Qle_bool_iff in E. exfalso.
  apply (Qlt_irrefl cmax).
  eapply Qlt_le_trans; [ exact Hc | ].
  eapply Qle_trans; [ apply clip_min_lower | exact E ].
Qed.

(** X1.  On flat arrays of one length with non-zero propensities,
    [evaluateNCIS] raises [ValueError] whatever the data: the error of an
    empty selection when no row is kept, the error of [einsum] on rank-1
    operands as soon as one row is kept. *)
Theorem evaluateNCIS_raises_ValueError :
  forall (est r p : list Q) (X : matrix) (cmin cmax : Q),
    length est = length X -> length r = length X -> length p = length X ->
    Forall (fun x => ~ x == 0) p ->
    evaluateNCIS (Arr1 est) X (Arr1 r) (Arr1 p) cmin cmax =
      match kept_rows cmin cmax est r p with
      | [] => Raise (ValueError no_cases_msg)
      | _ :: _ =>
          Raise (ValueError
            "einstein sum subscripts string contains too many subscripts for operand 0")
      end.
Proof.
  intros est r p X cmin cmax He Hr Hp _.
  unfold evaluateNCIS. simpl.
  rewrite !py_assert_true by (apply Nat.eqb_eq; assumption).
  rewrite check_fit_input_ok by (rewrite ?length_np_zeros; congruence).
  simpl.
  destruct (capped_pipeline_rows cmin cmax est r p) as [_ Hc]; try congruence.
  simpl in Hc. rewrite Hc.
  destruct (kept_rows cmin cmax est r p); reflexivity.
Qed.

(** X2.  With a cap below the floor ([cmax < cmin]) every weight is
    above the cap, so [evaluateDoublyRobustSimplified] discards every
    row and raises the [ValueError] of an empty selection. *)
Theorem evaluateDoublyRobustSimplified_cap_below_floor :
  forall (est r p : list Q) (X : matrix) (cmin cmax : Q),
    length est = length X -> length r = length X -> length p = length X ->
    Forall (fun x => ~ x == 0) p ->
    cmax < cmin ->
    evaluateDoublyRobustSimplified (Arr1 est) X (Arr1 r) (Arr1 p) cmin cmax
    = Raise (ValueError no_cases_msg).
Proof.
  intros est r p X cmin cmax He Hr Hp _ Hc.
  rewrite evaluateDoublyRobustSimplified_rows by assumption.
  now rewrite kept_rows_inverted_caps.
Qed.

Lemma Qle_bool_proper (x y c : Q) : x == y -> Qle_bool x c = Qle_bool y c.
Proof.
  intros E. destruct (Qle_bool y c) eqn:Ey.
  - apply Qle_bool_iff. apply Qle_bool_iff in Ey. now rewrite E.
  - destruct (Qle_bool x c) eqn:Ex; [ | reflexivity ].
    apply Qle_bool_iff in Ex. rewrite E in Ex.
    apply Qle_bool_iff in Ex. congruence.
Qed.

(** The weight of a row whose two scores are the same is their ratio,
    which is 1. *)
Lemma importance_weight_same_score (cmin x : Q) :
  ~ x == 0 -> cmin <= 1 ->
  importance_weight cmin x x = x / x /\ x / x == 1.
Proof.
  intros Hx Hc.
  assert (E : x / x == 1) by (now apply Qmult_inv_r).
  split; [ | exact E ].
  unfold importance_weight, clip_min, Qltb.
  replace (Qle_bool cmin (x / x)) with true; [ reflexivity | ].
  symmetry. apply Qle_bool_iff. now rewrite E.
Qed.

Lemma kept_rows_same_score (cmin cmax : Q) :
  cmin <= 1 -> 1 <= cmax ->
  forall r p : list Q,
    length r = length p -> Forall (fun x => ~ x == 0) p ->
    length (kept_rows cmin cmax p r p) = length p
    /\ Forall2 Qeq (map (drs_term cmin) (kept_rows cmin cmax p r p)) r.
Proof.
  intros Hlo Hhi. induction r as [|ri r IH]; intros [|pi p] Hl Hp;
    try discriminate; simpl.
  - split; [ reflexivity | constructor ].
  - inversion Hp as [|? ? Hpi Hp']; subst.
    injection Hl as Hl. destruct (IH p Hl Hp') as [IHl IHv].
    destruct (importance_weight_same_score cmin pi Hpi Hlo) as [Ew E1].
    replace (Qle_bool (importance_weight cmin pi pi) cmax) with true.
    + simpl. split; [ now rewrite IHl | ].
      constructor; [ | assumption ].
      rewrite Ew, E1. ring.
    + symmetry. apply Qle_bool_iff. now rewrite Ew, E1.
Qed.

(** X3.  When the evaluated policy's scores are the logging policy's
    ([est] is [p], non-zero) and 1 lies between the floor and the cap,
    [evaluateDoublyRobustSimplified] keeps every row and returns the
    plain mean of the observed rewards. *)
Theorem evaluateDoublyRobustSimplified_same_scores :
  forall (r p : list Q) (X : matrix) (cmin cmax : Q),
    length r = length X -> length p = length X -> X <> [] ->
    Forall (fun x => ~ x == 0) p ->
    cmin <= 1 -> 1 <= cmax ->
    exists v,
      evaluateDoublyRobustSimplified (Arr1 p) X (Arr1 r) (Arr1 p) cmin cmax
      = Ok (Val v)
      /\ v == np_sum r / inject_Z (Z.of_nat (length X)).
Proof.
  intros r p X cmin cmax Hr Hp HX Hnz Hlo Hhi.
  rewrite evaluateDoublyRobustSimplified_rows by assumption.
  destruct (kept_rows_same_score cmin cmax Hlo Hhi r p) as [Hl Hv];
    [ congruence | assumption | ].
  destruct (kept_rows cmin cmax p r p) as [|row rows] eqn:E.
  - exfalso. simpl in Hl. destruct X; [ now apply HX | ].
    rewrite <- Hl in Hp. discriminate.
  - eexists. split; [ reflexivity | ].
    unfold drs_mean. rewrite Hl, Hp.
    apply Qdiv_comp; [ | reflexivity ].
    unfold np_sum. now apply fold_left_Qplus_Qeq.
Qed.

(** ** The online loop for any policy *)

Lemma length_select_le {A : Type} :
  forall (mask : list bool) (xs : list A),
    (length (select mask xs) <= length xs)%nat.
Proof.
  induction mask as [|b mask IH]; intros [|x xs]; simpl; try lia.
  specialize (IH xs). destruct b; simpl; lia.
Qed.

Lemma select_incl {A : Type} :
  forall (mask : list bool) (xs : list A) (x : A),
    In x (select mask xs) -> In x xs.
Proof.
  induction mask as [|b mask IH]; intros [|y xs] x; simpl; try tauto.
  destruct b; simpl; intros Hx.
  - destruct Hx as [->|Hx]; [ now left | right; now apply IH ].
  - right. now apply IH.
Qed.

Lemma select_NoDup {A : Type} :
  forall (mask : list bool) (xs : list A),
    NoDup xs -> NoDup (select mask xs).
Proof.
  induction mask as [|b mask IH]; intros [|y xs] Hxs; simpl;
    try constructor.
  inversion Hxs as [|? ? Hy Hxs']; subst.
  destruct b; [ | now apply IH ].
  constructor; [ | now apply IH ].
  intros Hin. apply Hy. eapply select_incl; eassumption.
Qed.

Lemma select_app {A : Type} :
  forall (m1 m2 : list bool) (xs ys : list A),
    length m1 = length xs ->
    select (m1 ++ m2) (xs ++ ys) = select m1 xs ++ select m2 ys.
Proof.
  induction m1 as [|b m1 IH]; intros m2 [|x xs] ys Hl; try discriminate;
    simpl.
  - reflexivity.
  - injection Hl as Hl. rewrite IH by assumption. now destruct b.
Qed.

Lemma NoDup_py_range (lo hi : Z) : NoDup (py_range lo hi).
Proof.
  unfold py_range. generalize (Z.to_nat (hi - lo)) as k. intros k.
  generalize 0%nat as start.
  induction k as [|k IH]; intros start; simpl; constructor.
  - intros Hin. apply in_map_iff in Hin. destruct Hin as [j [Hj Hin]].
    apply in_seq in Hin. lia.
  - apply IH.
Qed.

Lemma inject_Z_succ (n : nat) :
  inject_Z (Z.of_nat (Datatypes.S n)) == 1 + inject_Z (Z.of_nat n).
Proof.
  rewrite Nat2Z.inj_succ. unfold Z.succ. rewrite inject_Z_plus. ring.
Qed.

Lemma fold_unit_rewards_bounds :
  forall (xs : list Q) (u : Q),
    Forall unit_reward xs ->
    u <= fold_left Qplus xs u
    /\ fold_left Qplus xs u <= u + inject_Z (Z.of_nat (length xs)).
Proof.
  induction xs as [|x xs IH]; intros u Hxs; simpl length; simpl fold_left.
  - split; [ apply Qle_refl | ]. change (inject_Z (Z.of_nat 0)) with 0. lra.
  - inversion Hxs as [|? ? [Hx0 Hx1] Hxs']; subst.
    destruct (IH (u + x) Hxs') as [Hlo Hhi].
    pose proof (inject_Z_succ (length xs)) as Hs.
    split; lra.
Qed.

(** The mean of rewards between 0 and 1 lies between 0 and 1. *)
Lemma mean_unit_rewards (xs : list Q) :
  Forall unit_reward xs -> xs <> [] ->
  0 <= np_sum xs / inject_Z (Z.of_nat (length xs)) <= 1.
Proof.
  intros Hxs Hne.
  destruct (fold_unit_rewards_bounds xs 0 Hxs) as [Hlo Hhi].
  fold (np_sum xs) in Hlo, Hhi.
  assert (Hpos : 0 < inject_Z (Z.of_nat (length xs))).
  { destruct xs as [|x xs]; [ contradiction | ].
    pose proof (inject_Z_succ (length xs)) as Hs.
    assert (0 <= inject_Z (Z.of_nat (length xs))).
    { change 0 with (inject_Z 0). rewrite <- Zle_Qle. lia. }
    simpl length. lra. }
  split.
  - apply Qle_shift_div_l; [ assumption | lra ].
  - apply Qle_shift_div_r; [ assumption | lra ].
Qed.

Lemma rewards_at_unit (r : list Q) (ix : list Z) :
  Forall unit_reward r -> Forall unit_reward (rewards_at r ix).
Proof.
  intros Hr. unfold rewards_at. apply Forall_forall. intros x Hx.
  apply in_map_iff in Hx. destruct Hx as [i [<- _]].
  destruct (nth_in_or_default (Z.to_nat i) r 0) as [Hin| ->].
  - rewrite Forall_forall in Hr. now apply Hr.
  - unfold unit_reward. lra.
Qed.

Lemma matching_rewards_unit :
  forall (pred a : list Z) (r : list Q),
    Forall unit_reward r -> Forall unit_reward (matching_rewards pred a r).
Proof.
  induction pred as [|pi pred IH]; intros [|ai a] [|ri r] Hr; simpl;
    try constructor.
  inversion Hr; subst.
  destruct (pi =? ai)%Z; [ constructor; [ assumption | ] | ]; now apply IH.
Qed.

Lemma length_matching_rewards_le :
  forall (pred a : list Z) (r : list Q),
    (length (matching_rewards pred a r) <= length r)%nat.
Proof.
  induction pred as [|pi pred IH]; intros [|ai a] [|ri r]; simpl; try lia.
  specialize (IH a r). destruct (pi =? ai)%Z; simpl; lia.
Qed.

Lemma py_getitem_out_of_range {A : Type} (xs : list A) (i : Z) :
  (i < - Z.of_nat (length xs) \/ Z.of_nat (length xs) <= i)%Z ->
  py_getitem xs i = Raise IndexError.
Proof.
  intros Hi. unfold py_getitem.
  destruct (Z.ltb_spec i 0).
  - destruct (Z.leb_spec 0 (i + Z.of_nat (length xs))); [ lia | reflexivity ].
  - destruct (Z.leb_spec 0 i); [ | lia ].
    destruct (Z.ltb_spec i (Z.of_nat (length xs))); [ lia | reflexivity ].
Qed.

Lemma py_range_cons (lo hi : Z) :
  (lo < hi)%Z -> py_range lo hi = lo :: py_range (lo + 1) hi.
Proof.
  intros Hlt. unfold py_range.
  replace (Z.to_nat (hi - lo)) with (Datatypes.S (Z.to_nat (hi - (lo + 1))))
    by lia.
  simpl. f_equal; [ lia | ].
  rewrite <- seq_shift, map_map. apply map_ext. intros k. lia.
Qed.

Lemma py_range_empty (lo hi : Z) : (hi <= lo)%Z -> py_range lo hi = [].
Proof.
  intros Hle. unfold py_range.
  now replace (Z.to_nat (hi - lo)) with 0%nat by lia.
Qed.

(** [l[:-(k+1):-1]] for a positive [k]: the last [k] elements, the last
    one first. *)
Lemma slice_stop_rev_last (A : Type) (l : list A) (k : Z) :
  (0 < k)%Z ->
  slice_stop_rev l (- (k + 1)) = firstn (Z.to_nat k) (rev l).
Proof.
  intros Hk. unfold slice_stop_rev.
  destruct (Z.ltb_spec (- (k + 1)) 0); [ | lia ].
  rewrite firstn_rev. f_equal. f_equal. lia.
Qed.

Section OnlineAnyPolicy.

Context {S G : Type} `{Policy S} `{Generator G}.

Variables (X : matrix) (a : list Z) (r : list Q).
Variables (partial_fit_flag : bool) (update_freq : Z).

Hypothesis length_a : length a = length X.
Hypothesis length_r : length r = length X.

Lemma predict_one_row (pol : S) (x : list Q) :
  exists would_choose, fst (predict pol [x]) = [would_choose].
Proof.
  pose proof (predict_length pol [x]) as Hl.
  destruct (fst (predict pol [x])) as [|c [|c' l]]; try discriminate.
  now exists c.
Qed.

Section PositiveFrequency.

Hypothesis update_freq_pos : (0 < update_freq)%Z.

Lemma rs_refit_total (ix : list Z) (pol : S) :
  ix <> [] -> Forall (in_range X) ix ->
  exists pol', rs_refit partial_fit_flag update_freq X a r ix pol = Ok pol'.
Proof.
  intros Hne Hix.
  destruct (rs_refit_in_range X a r partial_fit_flag update_freq
              (fun _ => True) length_a length_r update_freq_pos
              (fun _ _ _ _ _ => I) (fun _ _ _ _ _ => I) ix pol Hne Hix I)
    as [pol' [E _]].
  now exists pol'.
Qed.

(** An iteration on a row in range either accepts the row or leaves the
    counters as they are; it does not raise. *)
Lemma rs_step_total (st : rs_state) (i : Z) :
  in_range X i -> Forall (in_range X) (ix_chosen st) ->
  exists st' (accepted : bool),
    rs_step partial_fit_flag update_freq X a r st i = Ok st'
    /\ ix_chosen st' = ix_chosen st ++ select [accepted] [i]
    /\ cum_n st' = (cum_n st + Z.of_nat (length (select [accepted] [i])))%Z
    /\ cum_r st' =
       fold_left Qplus (rewards_at r (select [accepted] [i])) (cum_r st).
Proof.
  intros Hi Hix. unfold rs_step.
  destruct (py_getitem_in_range X i Hi) as [x [Ex _]]. rewrite Ex. simpl.
  destruct (py_getitem_in_range a i) as [ai [Ea _]].
  { now apply (in_range_same_length X). }
  destruct (py_getitem_in_range r i) as [ri [Er Nr]].
  { now apply (in_range_same_length X). }
  destruct (predict_one_row (policy_state st) x) as [c Hc].
  destruct (predict (policy_state st) [x]) as [preds pol]. simpl in Hc.
  subst preds. cbn [py_getitem length nth_error Z.to_nat]. simpl.
  rewrite Ea. simpl.
  destruct (c =? ai)%Z.
  - rewrite Er. simpl.
    destruct (Z.eqb_spec update_freq 0); [ lia | ].
    assert (Eri : nth (Z.to_nat i) r 0 = ri) by (now apply nth_error_nth).
    destruct ((cum_n st + 1) mod update_freq =? 0)%Z.
    + destruct (rs_refit_total (ix_chosen st ++ [i]) pol) as [pol' ->].
      * now destruct (ix_chosen st).
      * apply Forall_app. split; [ assumption | now constructor ].
      * simpl. exists (mk_rs_state (cum_r st + ri) (cum_n st + 1)
                         (ix_chosen st ++ [i]) pol'), true.
        simpl. rewrite Eri. repeat split.
    + exists (mk_rs_state (cum_r st + ri) (cum_n st + 1)
                (ix_chosen st ++ [i]) pol), true.
      simpl. rewrite Eri. repeat split.
  - exists (mk_rs_state (cum_r st) (cum_n st) (ix_chosen st) pol), false.
    simpl. rewrite app_nil_r, Z.add_0_r. repeat split.
Qed.

Lemma rs_for_total :
  forall (ixs : list Z) (st : rs_state),
    Forall (in_range X) ixs -> Forall (in_range X) (ix_chosen st) ->
    exists st' (mask : list bool),
      rs_for partial_fit_flag update_freq X a r st ixs = Ok st'
      /\ length mask = length ixs
      /\ ix_chosen st' = ix_chosen st ++ select mask ixs
      /\ cum_n st' = (cum_n st + Z.of_nat (length (select mask ixs)))%Z
      /\ cum_r st' = fold_left Qplus (rewards_at r (select mask ixs)) (cum_r st).
Proof.
  induction ixs as [|i ixs IH]; intros st Hixs Hst; simpl.
  - exists st, []. simpl. rewrite app_nil_r, Z.add_0_r. repeat split.
  - inversion Hixs as [|? ? Hi Hixs']; subst.
    destruct (rs_step_total st i Hi Hst) as [st1 [b [-> [I1 [N1 R1]]]]].
    simpl.
    destruct (IH st1 Hixs') as [st2 [mask [-> [Hl [I2 [N2 R2]]]]]].
    { rewrite I1. apply Forall_app. split; [ assumption | ].
      destruct b; simpl;
        [ apply Forall_cons; [ exact Hi | apply Forall_nil ]
        | apply Forall_nil ]. }
    exists st2, (b :: mask). split; [ reflexivity | ].
    split; [ simpl; now rewrite Hl | ].
    rewrite I2, I1, N2, N1, R2, R1.
    destruct b; simpl; rewrite <- ?app_assoc, ?app_nil_r, ?Z.add_0_r;
      repeat split; lia.
Qed.

(** The two loops from a start index in [[0, n]]: they return, and the
    state they return records a selection of the wrap-around order. *)
Lemma rs_online_loops_total (policy : S) (s : Z) :
  (0 <= s <= Z.of_nat (length X))%Z ->
  exists st (mask : list bool),
    rs_online_loops policy X a r partial_fit_flag (StartInt s) update_freq
    = Ok st
    /\ length mask = length X
    /\ ix_chosen st =
       select mask (py_range s (Z.of_nat (length X)) ++ py_range 0 s)
    /\ cum_n st = Z.of_nat (length (ix_chosen st))
    /\ cum_r st = np_sum (rewards_at r (ix_chosen st)).
Proof.
  intros Hs. set (n := Z.of_nat (length X)) in *.
  set (st0 := mk_rs_state 0 0 []
                (fit policy (firstn 0 X) (firstn 0 a) (firstn 0 r))).
  destruct (rs_for_total (py_range s n) st0)
    as [st1 [m1 [E1 [L1 [I1 [N1 R1]]]]]].
  { apply py_range_in_range; subst n; lia. }
  { constructor. }
  destruct (rs_for_total (py_range 0 s) st1)
    as [st2 [m2 [E2 [L2 [I2 [N2 R2]]]]]].
  { apply py_range_in_range; subst n; lia. }
  { rewrite I1. simpl. apply Forall_forall. intros i Hi.
    apply select_incl in Hi. revert i Hi. apply Forall_forall.
    apply py_range_in_range; subst n; lia. }
  exists st2, (m1 ++ m2).
  split.
  { unfold rs_online_loops. fold n. fold st0. rewrite E1. simpl. exact E2. }
  split.
  { rewrite length_app, L1, L2, !length_py_range. subst n. lia. }
  simpl in I1, N1, R1.
  split.
  { rewrite I2, I1. now rewrite select_app. }
  split.
  { rewrite N2, N1, I2, I1, length_app. lia. }
  rewrite R2, R1, I2, I1. unfold np_sum, rewards_at.
  now rewrite map_app, fold_left_app.
Qed.

(** X4.  Online, on arrays of one length, with a positive [update_freq]
    and a start index in [[0, n]], [evaluateRejectionSampling] raises
    nothing but the [ValueError] for the absence of matching samples:
    for every policy it either raises that error or returns a count
    between 1 and [n]. *)
Theorem evaluateRejectionSampling_online_count_bounds :
  forall (ambient : G) (policy : S) (random_state : random_state_arg G)
         (s : Z),
    (0 <= s <= Z.of_nat (length X))%Z ->
    evaluateRejectionSampling ambient policy X (Arr1 a) (Arr1 r)
      true partial_fit_flag (SpInt s) random_state update_freq
    = Raise (ValueError no_match_msg)
    \/ exists mean count,
         evaluateRejectionSampling ambient policy X (Arr1 a) (Arr1 r)
           true partial_fit_flag (SpInt s) random_state update_freq
         = Ok (Val mean, count)
         /\ (1 <= count <= Z.of_nat (length X))%Z.
Proof.
  intros ambient policy rs s Hs.
  destruct (rs_online_loops_total policy s Hs)
    as [st [mask [E [Lm [I [N _]]]]]].
  unfold evaluateRejectionSampling.
  rewrite check_fit_input_ok by assumption.
  cbn [bind resolve_start_point negb]. rewrite E. cbn [bind].
  destruct (Z.eqb_spec (cum_n st) 0) as [E0|E0]; [ now left | right ].
  eexists; eexists. split; [ reflexivity | ].
  assert (Hle : (length (ix_chosen st) <= length X)%nat).
  { rewrite I. etransitivity; [ apply length_select_le | ].
    rewrite length_app, !length_py_range. lia. }
  lia.
Qed.

(** X5.  Under the same conditions the rows that the two loops accept
    are a selection of the wrap-around order [s .. n-1, 0 .. s-1]: no
    row is accepted twice, [cum_n] is their number and [cum_r] is the
    sum of their rewards. *)
Theorem rs_online_loops_accept_each_row_at_most_once :
  forall (policy : S) (s : Z),
    (0 <= s <= Z.of_nat (length X))%Z ->
    exists st (mask : list bool),
      rs_online_loops policy X a r partial_fit_flag (StartInt s) update_freq
      = Ok st
      /\ ix_chosen st =
         select mask (py_range s (Z.of_nat (length X)) ++ py_range 0 s)
      /\ NoDup (ix_chosen st)
      /\ cum_n st = Z.of_nat (length (ix_chosen st))
      /\ cum_r st = np_sum (rewards_at r (ix_chosen st)).
Proof.
  intros policy s Hs.
  destruct (rs_online_loops_total policy s Hs)
    as [st [mask [E [Lm [I [N R]]]]]].
  exists st, mask. repeat split; try assumption.
  rewrite I. apply select_NoDup.
  eapply Permutation_NoDup;
    [ symmetry; apply py_range_wrap_around; exact Hs | ].
  apply NoDup_py_range.
Qed.

(** X6.  Under the same conditions, with rewards between 0 and 1, the
    mean reward that the online evaluation returns lies between 0 and
    1. *)
Theorem evaluateRejectionSampling_online_mean_in_unit_interval :
  forall (ambient : G) (policy : S) (random_state : random_state_arg G)
         (s : Z) (mean : Q) (count : Z),
    (0 <= s <= Z.of_nat (length X))%Z ->
    Forall unit_reward r ->
    evaluateRejectionSampling ambient policy X (Arr1 a) (Arr1 r)
      true partial_fit_flag (SpInt s) random_state update_freq
    = Ok (Val mean, count) ->
    0 <= mean <= 1.
Proof.
  intros ambient policy rs s mean count Hs Hr.
  destruct (rs_online_loops_total policy s Hs)
    as [st [mask [E [Lm [I [N R]]]]]].
  unfold evaluateRejectionSampling.
  rewrite check_fit_input_ok by assumption.
  cbn [bind resolve_start_point negb]. rewrite E. cbn [bind].
  destruct (Z.eqb_spec (cum_n st) 0) as [E0|E0]; [ discriminate | ].
  intros Eq. injection Eq as <- <-.
  rewrite R, N.
  replace (length (ix_chosen st))
    with (length (rewards_at r (ix_chosen st)))
    by (unfold rewards_at; apply length_map).
  apply mean_unit_rewards; [ now apply rewards_at_unit | ].
  intros Hnil. apply E0. rewrite N.
  destruct (ix_chosen st); [ reflexivity | discriminate ].
Qed.

Lemma rs_for_app (st : rs_state) (l1 l2 : list Z) :
  rs_for partial_fit_flag update_freq X a r st (l1 ++ l2)
  = (st1 <- rs_for partial_fit_flag update_freq X a r st l1 ;;
     rs_for partial_fit_flag update_freq X a r st1 l2).
Proof.
  revert st. induction l1 as [|i l1 IH]; intros st; simpl.
  - reflexivity.
  - destruct (rs_step partial_fit_flag update_freq X a r st i); simpl;
      [ apply IH | reflexivity ].
Qed.

Lemma rs_for_out_of_range (st : rs_state) (i : Z) (ixs : list Z) :
  (i < - Z.of_nat (length X) \/ Z.of_nat (length X) <= i)%Z ->
  rs_for partial_fit_flag update_freq X a r st (i :: ixs) = Raise IndexError.
Proof.
  intros Hi. simpl. unfold rs_step.
  now rewrite py_getitem_out_of_range.
Qed.

(** X7.  Online with a positive [update_freq], a start index beyond
    the dataset on either side ([s > n] or [s < -n]) makes
    [evaluateRejectionSampling] raise [IndexError]: below [-n] at the
    first row it reads, above [n] once the second loop has gone through
    the whole dataset and reads row [n]. *)
Theorem evaluateRejectionSampling_online_start_out_of_range :
  forall (ambient : G) (policy : S) (random_state : random_state_arg G)
         (s : Z),
    (s < - Z.of_nat (length X) \/ Z.of_nat (length X) < s)%Z ->
    evaluateRejectionSampling ambient policy X (Arr1 a) (Arr1 r)
      true partial_fit_flag (SpInt s) random_state update_freq
    = Raise IndexError.
Proof.
  intros ambient policy rs s Hs.
  unfold evaluateRejectionSampling.
  rewrite check_fit_input_ok by assumption.
  cbn [bind resolve_start_point negb]. unfold rs_online_loops.
  set (n := Z.of_nat (length X)) in *.
  set (st0 := mk_rs_state 0 0 []
                (fit policy (firstn 0 X) (firstn 0 a) (firstn 0 r))).
  destruct Hs as [Hs|Hs].
  - rewrite (py_range_cons s n) by lia.
    rewrite rs_for_out_of_range by (subst n; lia). reflexivity.
  - rewrite (py_range_empty s n) by lia. cbn [rs_for bind].
    rewrite (py_range_split n s) by lia.
    rewrite rs_for_app.
    destruct (rs_for_total (py_range 0 n) st0) as [st1 [m [-> _]]].
    { apply py_range_in_range; subst n; lia. }
    { constructor. }
    cbn [bind]. rewrite (py_range_cons n s) by lia.
    rewrite rs_for_out_of_range by (subst n; lia). reflexivity.
Qed.

(** X8.  The data of a refit, for accepted rows [ix] that are indices
    of the dataset: a full refit is given the accepted rows in the order
    of their acceptance; an incremental refit is given the last
    [update_freq] accepted rows (all of them when there are fewer), the
    most recent first. *)
Theorem rs_refit_batches :
  forall (ix : list Z) (pol : S),
    ix <> [] -> Forall (in_range X) ix ->
    (exists Xf af rf,
        np_take X ix = Ok Xf /\ np_take a ix = Ok af /\ np_take r ix = Ok rf
        /\ rs_refit false update_freq X a r ix pol = Ok (fit pol Xf af rf))
    /\ (exists Xf af rf,
           let batch := firstn (Z.to_nat update_freq) (rev ix) in
           np_take X batch = Ok Xf /\ np_take a batch = Ok af
           /\ np_take r batch = Ok rf
           /\ rs_refit true update_freq X a r ix pol
              = Ok (partial_fit pol Xf af rf)).
Proof.
  intros ix pol Hne Hix.
  assert (Htake : forall b, Forall (in_range X) b ->
            exists Xf af rf, np_take X b = Ok Xf /\ np_take a b = Ok af
                             /\ np_take r b = Ok rf).
  { intros b Hb.
    destruct (np_take_in_range X b Hb) as [Xf EX].
    destruct (np_take_in_range a b) as [af Ea].
    { eapply Forall_impl; [ | exact Hb ].
      intros i. now apply in_range_same_length. }
    destruct (np_take_in_range r b) as [rf Er].
    { eapply Forall_impl; [ | exact Hb ].
      intros i. now apply in_range_same_length. }
    now exists Xf, af, rf. }
  split.
  - destruct (Htake ix Hix) as [Xf [af [rf [EX [Ea Er]]]]].
    exists Xf, af, rf. repeat split; try assumption.
    unfold rs_refit. cbn [negb].
    destruct ix as [|i ix]; [ contradiction | ].
    rewrite EX, Ea, Er. reflexivity.
  - assert (Hb : Forall (in_range X) (firstn (Z.to_nat update_freq) (rev ix))).
    { apply Forall_forall. intros i Hi.
      assert (Hin : In i (rev ix)).
      { rewrite <- (firstn_skipn (Z.to_nat update_freq) (rev ix)).
        apply in_or_app. now left. }
      apply in_rev in Hin. rewrite Forall_forall in Hix. auto. }
    destruct (Htake _ Hb) as [Xf [af [rf [EX [Ea Er]]]]].
    exists Xf, af, rf. cbv zeta. repeat split; try assumption.
    unfold rs_refit. cbn [negb].
    rewrite slice_stop_rev_last by assumption.
    destruct (firstn (Z.to_nat update_freq) (rev ix)) as [|i b] eqn:Eb.
    + exfalso. apply (f_equal (@length Z)) in Eb.
      rewrite length_firstn, length_rev in Eb. simpl in Eb.
      destruct ix; [ contradiction | simpl in Eb; lia ].
    + rewrite EX, Ea, Er. reflexivity.
Qed.

End PositiveFrequency.

(** An iteration with [update_freq = 0] before any acceptance: it raises
    [ZeroDivisionError] if the row is accepted and changes no counter
    otherwise. *)
Lemma rs_step_zero_freq (st : rs_state) (i : Z) :
  in_range X i -> cum_n st = 0%Z ->
  rs_step partial_fit_flag 0 X a r st i = Raise ZeroDivisionError
  \/ exists st', rs_step partial_fit_flag 0 X a r st i = Ok st'
                 /\ cum_n st' = 0%Z.
Proof.
  intros Hi Hn. unfold rs_step.
  destruct (py_getitem_in_range X i Hi) as [x [Ex _]]. rewrite Ex. simpl.
  destruct (py_getitem_in_range a i) as [ai [Ea _]].
  { now apply (in_range_same_length X). }
  destruct (py_getitem_in_range r i) as [ri [Er _]].
  { now apply (in_range_same_length X). }
  destruct (predict_one_row (policy_state st) x) as [c Hc].
  destruct (predict (policy_state st) [x]) as [preds pol]. simpl in Hc.
  subst preds. cbn [py_getitem length nth_error Z.to_nat]. simpl.
  rewrite Ea. simpl.
  destruct (c =? ai)%Z.
  - rewrite Er. simpl. now left.
  - right. eexists. split; [ reflexivity | exact Hn ].
Qed.

Lemma rs_for_zero_freq :
  forall (ixs : list Z) (st : rs_state),
    Forall (in_range X) ixs -> cum_n st = 0%Z ->
    rs_for partial_fit_flag 0 X a r st ixs = Raise ZeroDivisionError
    \/ exists st', rs_for partial_fit_flag 0 X a r st ixs = Ok st'
                   /\ cum_n st' = 0%Z.
Proof.
  induction ixs as [|i ixs IH]; intros st Hixs Hn; simpl.
  - right. now exists st.
  - inversion Hixs as [|? ? Hi Hixs']; subst.
    destruct (rs_step_zero_freq st i Hi Hn) as [->|[st1 [-> Hn1]]];
      [ now left | ].
    simpl. now apply IH.
Qed.

(** X9.  Online with [update_freq = 0] and a start index in [[0, n]],
    [evaluateRejectionSampling] returns no estimate: the first
    acceptance raises [ZeroDivisionError], and without any acceptance
    the call raises the [ValueError] for the absence of matching
    samples. *)
Theorem evaluateRejectionSampling_online_zero_update_freq :
  forall (ambient : G) (policy : S) (random_state : random_state_arg G)
         (s : Z),
    (0 <= s <= Z.of_nat (length X))%Z ->
    evaluateRejectionSampling ambient policy X (Arr1 a) (Arr1 r)
      true partial_fit_flag (SpInt s) random_state 0
    = Raise ZeroDivisionError
    \/ evaluateRejectionSampling ambient policy X (Arr1 a) (Arr1 r)
         true partial_fit_flag (SpInt s) random_state 0
       = Raise (ValueError no_match_msg).
Proof.
  intros ambient policy rs s Hs.
  unfold evaluateRejectionSampling.
  rewrite check_fit_input_ok by assumption.
  cbn [bind resolve_start_point negb]. unfold rs_online_loops.
  set (n := Z.of_nat (length X)) in *.
  set (st0 := mk_rs_state 0 0 []
                (fit policy (firstn 0 X) (firstn 0 a) (firstn 0 r))).
  destruct (rs_for_zero_freq (py_range s n) st0) as [->|[st1 [-> Hn1]]].
  { apply py_range_in_range; subst n; lia. }
  { reflexivity. }
  { now left. }
  cbn [bind].
  destruct (rs_for_zero_freq (py_range 0 s) st1) as [->|[st2 [-> Hn2]]].
  { apply py_range_in_range; subst n; lia. }
  { assumption. }
  { now left. }
  cbn [bind]. rewrite Hn2. now right.
Qed.

(** X10.  Whatever the mode, a [start_point_online] that is neither
    'random' nor a number makes [evaluateRejectionSampling] raise
    [ValueError]; a float passes that check but, online, [range] refuses
    it with [TypeError]. *)
Theorem evaluateRejectionSampling_start_point_types :
  forall (ambient : G) (policy : S) (random_state : random_state_arg G)
         (uf : Z),
    (forall online : bool,
        evaluateRejectionSampling ambient policy X (Arr1 a) (Arr1 r)
          online partial_fit_flag SpOther random_state uf
        = Raise (ValueError start_point_msg))
    /\ (forall q : Q,
          evaluateRejectionSampling ambient policy X (Arr1 a) (Arr1 r)
            true partial_fit_flag (SpFloat q) random_state uf
          = Raise TypeError).
Proof.
  intros ambient policy rs uf. split.
  - intros online. unfold evaluateRejectionSampling.
    now rewrite check_fit_input_ok by assumption.
  - intros q. unfold evaluateRejectionSampling.
    now rewrite check_fit_input_ok by assumption.
Qed.

End OnlineAnyPolicy.

(** ** The offline branch *)

Section Offline.

Context {S G : Type} `{Policy S} `{Generator G}.

(** X11.  Offline, on arrays of one length with rewards between 0 and 1,
    whenever [evaluateRejectionSampling] returns a number for the mean,
    that mean lies between 0 and 1 and the count lies between 1 and the
    number of rows. *)
Theorem evaluateRejectionSampling_offline_bounds :
  forall (ambient : G) (policy : S) (X : matrix) (a : list Z) (r : list Q)
         (partial_fit_flag : bool) (sp : start_point_arg)
         (random_state : random_state_arg G) (update_freq : Z)
         (mean : Q) (count : Z),
    length a = length X -> length r = length X ->
    Forall unit_reward r ->
    evaluateRejectionSampling ambient policy X (Arr1 a) (Arr1 r)
      false partial_fit_flag sp random_state update_freq
    = Ok (Val mean, count) ->
    0 <= mean <= 1 /\ (1 <= count <= Z.of_nat (length X))%Z.
Proof.
  intros ambient policy X a r pf sp rs uf mean count Ha Hr Hunit.
  unfold evaluateRejectionSampling.
  rewrite check_fit_input_ok by assumption. cbn [bind].
  destruct (resolve_start_point ambient (length X) sp rs) as [start|e];
    [ | discriminate ].
  cbn [bind negb].
  destruct (match_mask_rows (fst (predict policy X)) a r) as [Hv Hc];
    try (rewrite predict_length; assumption).
  rewrite Hv, Hc.
  pose proof (matching_rewards_unit (fst (predict policy X)) a r Hunit) as Hu.
  pose proof (length_matching_rewards_le (fst (predict policy X)) a r) as Hl.
  destruct (matching_rewards (fst (predict policy X)) a r) as [|m ms] eqn:Em;
    [ discriminate | ].
  rewrite np_mean_cons. intros Eq. injection Eq as <- <-.
  split.
  - apply mean_unit_rewards; [ assumption | discriminate ].
  - simpl length in *. lia.
Qed.

(** X12.  Offline, on a non-empty dataset, the result does not depend on
    [partial_fit], [update_freq], [random_state] or on which supported
    [start_point_online] is passed. *)
Theorem evaluateRejectionSampling_offline_ignores_online_parameters :
  forall (ambient ambient' : G) (policy : S) (X : matrix) (a : list Z)
         (r : list Q) (partial_fit_flag partial_fit_flag' : bool)
         (sp sp' : start_point_arg)
         (random_state random_state' : random_state_arg G)
         (update_freq update_freq' : Z),
    length a = length X -> length r = length X -> X <> [] ->
    sp <> SpOther -> sp' <> SpOther ->
    evaluateRejectionSampling ambient policy X (Arr1 a) (Arr1 r)
      false partial_fit_flag sp random_state update_freq
    = evaluateRejectionSampling ambient' policy X (Arr1 a) (Arr1 r)
        false partial_fit_flag' sp' random_state' update_freq'.
Proof.
  intros ambient ambient' policy X a r pf pf' sp sp' rs rs' uf uf'
         Ha Hr HX Hsp Hsp'.
  assert (Hn : (0 < length X)%nat).
  { destruct X; [ contradiction | simpl; lia ]. }
  now rewrite !evaluateRejectionSampling_offline by assumption.
Qed.

(** X13.  On an empty dataset: with [start_point_online='random'] the
    call raises the generator's [ValueError] in either mode; offline
    with a number for the start point it returns [(nan, 0)]; online
    from index 0 it raises the [ValueError] for the absence of matching
    samples. *)
Theorem evaluateRejectionSampling_empty_dataset :
  forall (ambient : G) (policy : S) (partial_fit_flag : bool)
         (random_state : random_state_arg G) (update_freq : Z),
    (forall online : bool,
        evaluateRejectionSampling ambient policy [] (Arr1 []) (Arr1 [])
          online partial_fit_flag SpRandom random_state update_freq
        = Raise (ValueError "high <= 0"))
    /\ (forall s : Z,
          evaluateRejectionSampling ambient policy [] (Arr1 []) (Arr1 [])
            false partial_fit_flag (SpInt s) random_state update_freq
          = Ok (NaN, 0%Z))
    /\ evaluateRejectionSampling ambient policy [] (Arr1 []) (Arr1 [])
         true partial_fit_flag (SpInt 0) random_state update_freq
       = Raise (ValueError no_match_msg).
Proof.
  intros ambient policy pf rs uf. repeat split.
  intros s. unfold evaluateRejectionSampling. simpl.
  pose proof (predict_length policy []) as Hl.
  destruct (fst (predict policy [])); [ reflexivity | discriminate ].
Qed.

End Offline.

(** ** The doubly-robust estimator and the caller's arrays *)

Lemma combine_fst_snd {A B : Type} (l : list (A * B)) :
  combine (map fst l) (map snd l) = l.
Proof.
  induction l as [|[x y] l IH]; simpl; [ reflexivity | now rewrite IH ].
Qed.

Lemma store_eta (h : store) :
  mk_store (reward_estimator_buf h) (p_buf h) = h.
Proof. now destruct h. Qed.

(** Where no prediction is the logged action nothing is corrected. *)
Lemma dr_corrected_no_match :
  forall (pred a : list Z) (rhat_new rhat_old r p : list Q),
    Forall2 (fun pi ai => pi <> ai) pred a ->
    length rhat_new = length pred -> length rhat_old = length pred ->
    length r = length pred -> length p = length pred ->
    dr_corrected rhat_new rhat_old (zip_with Z.eqb pred a) r p = rhat_new.
Proof.
  intros pred a rhat_new rhat_old r p Hne. revert rhat_new rhat_old r p.
  induction Hne as [|pi ai pred a Hpa _ IH];
    intros [|rn rhat_new] [|ro rhat_old] [|ri r] [|qi p] Hn Ho Hr Hp;
    try discriminate; simpl.
  - reflexivity.
  - destruct (Z.eqb_spec pi ai); [ contradiction | ].
    f_equal. apply IH; simpl in *; congruence.
Qed.

(** A mask that holds nowhere assigns nothing. *)
Lemma masked_assign_nowhere {A : Type} :
  forall (xs : list A) (mask : list bool) (vals : list A),
    Forall (fun b => b = false) mask -> masked_assign xs mask vals = xs.
Proof.
  induction xs as [|x xs IH]; intros [|b mask] vals Hm; simpl;
    try reflexivity.
  inversion Hm; subst. f_equal. now apply IH.
Qed.

Lemma np_eq_scalar_nowhere (xs : list Q) (c : Q) :
  Forall (fun x => ~ x == c) xs ->
  Forall (fun b => b = false) (np_eq_scalar xs c).
Proof.
  intros Hxs. unfold np_eq_scalar. induction Hxs as [|x xs Hx _ IH]; simpl;
    constructor; [ | assumption ].
  destruct (Qeq_bool x c) eqn:E; [ | reflexivity ].
  apply Qeq_bool_iff in E. contradiction.
Qed.

Section DoublyRobustStore.

Context {G R C : Type}.
Context `{Generator G} `{RewardModel R C G}.

(** Writing back what a column view reads changes nothing. *)
Lemma write_read_view (h : store) (second : bool) :
  write h (ColumnView second) (read h (ColumnView second))
  = (h, ColumnView second).
Proof.
  destruct second; simpl; now rewrite combine_fst_snd, store_eta.
Qed.

(** Imputation on a column that holds neither 0 nor 1 only advances the
    generator. *)
Lemma impute_invalid_nothing_to_impute (rs : G) (h : store) (second : bool) :
  Forall (fun x => ~ x == 1 /\ ~ x == 0) (read h (ColumnView second)) ->
  exists rs',
    impute_invalid rs h (ColumnView second) = (rs', h, ColumnView second).
Proof.
  intros Hv. unfold impute_invalid.
  destruct (beta rs 3 1 _) as [draws1 rs1].
  rewrite masked_assign_nowhere.
  2:{ apply np_eq_scalar_nowhere. eapply Forall_impl; [ | exact Hv ].
      now intros x [Hx _]. }
  rewrite write_read_view.
  destruct (beta rs1 1 3 _) as [draws0 rs2].
  rewrite masked_assign_nowhere.
  2:{ apply np_eq_scalar_nowhere. eapply Forall_impl; [ | exact Hv ].
      now intros x [_ Hx]. }
  rewrite write_read_view. now exists rs2.
Qed.

(** Imputation on an array of the call's own leaves the store alone. *)
Lemma impute_invalid_owned (rs : G) (h : store) (v : list Q) :
  exists rs' v', impute_invalid rs h (Owned v) = (rs', h, Owned v').
Proof.
  unfold impute_invalid. cbn [read write].
  destruct (beta rs 3 1 _) as [draws1 rs1].
  cbn [read write].
  destruct (beta rs1 1 3 _) as [draws0 rs2].
  eexists; eexists; reflexivity.
Qed.

Lemma dr_estimate_owned (rs : G) (h : store) (vn vo : list Q)
  (pred a : list Z) (r p : list Q) (handle_invalid : bool)
  (c pmin : option Q) :
  snd (dr_estimate rs h (Owned vn) (Owned vo) pred a r p
         handle_invalid c pmin) = h.
Proof.
  unfold dr_estimate. destruct handle_invalid.
  - destruct (impute_invalid_owned rs h vn) as [rs1 [vn' ->]].
    destruct (impute_invalid_owned rs1 h vo) as [rs2 [vo' ->]].
    reflexivity.
  - reflexivity.
Qed.

(** X14.  When [reward_estimator] is not an array (a fitted model, a
    classifier to fit, or an unsupported object), no call of
    [evaluateDoublyRobust] modifies anything the caller holds: the
    estimates are arrays of the call's own. *)
Theorem evaluateDoublyRobust_model_leaves_store :
  forall (ambient : G) (h : store) (pred : ndarray Z) (X : matrix)
         (a : ndarray Z) (r : ndarray Q)
         (reward_estimator : reward_estimator_arg R C)
         (nchoices : option Z) (handle_invalid : bool) (c pmin : option Q)
         (random_state : random_state_arg G),
    reward_estimator <> ReArray ->
    snd (evaluateDoublyRobust ambient h pred X a r reward_estimator
           nchoices handle_invalid c pmin random_state) = h.
Proof.
  intros ambient h pred X a r re nchoices hi c pmin rs Hre.
  unfold evaluateDoublyRobust, dr_validate.
  destruct (_check_fit_input X a r) as [[[X' a'] r']|e]; [ | reflexivity ].
  cbn [bind].
  destruct (_check_1d_inp (p_buf h)) as [p'|e]; [ | reflexivity ].
  cbn [bind].
  destruct (_check_1d_inp pred) as [pred'|e]; [ | reflexivity ].
  cbn [bind].
  destruct (py_assert _); [ | reflexivity ]. cbn [bind].
  destruct (py_assert _); [ | reflexivity ]. cbn [bind].
  destruct re as [|model|clf|]; [ contradiction | | | reflexivity ].
  - cbn [resolve_reward_estimator].
    destruct (np_take2 _ _ pred') as [vn|e]; [ | reflexivity ].
    cbn [bind].
    destruct (np_take2 _ _ a') as [vo|e]; [ | reflexivity ].
    cbn [bind].
    pose proof (dr_estimate_owned (_check_random_state ambient rs) h vn vo
                  pred' a' r' p' hi c pmin) as E.
    destruct (dr_estimate _ h (Owned vn) (Owned vo) pred' a' r' p' hi c pmin).
    exact E.
  - cbn [resolve_reward_estimator].
    destruct (SeparateClassifiers_fit clf nchoices _ X' a' r')
      as [model rs'].
    destruct (np_take2 _ _ pred') as [vn|e]; [ | reflexivity ].
    cbn [bind].
    destruct (np_take2 _ _ a') as [vo|e]; [ | reflexivity ].
    cbn [bind].
    pose proof (dr_estimate_owned rs' h vn vo pred' a' r' p' hi c pmin) as E.
    destruct (dr_estimate _ h (Owned vn) (Owned vo) pred' a' r' p' hi c pmin).
    exact E.
Qed.

(** X15.  On a precomputed array without imputation, when no prediction
    is the logged action, [evaluateDoublyRobust] returns the plain mean
    of the estimates for the new policy's actions, whatever the rewards
    and the propensities, and leaves the caller's arrays as they were. *)
Theorem evaluateDoublyRobust_no_match_is_direct_method :
  forall (ambient : G) (h : store) (pred a : list Z) (X : matrix)
         (r p : list Q) (nchoices : option Z) (c pmin : option Q)
         (random_state : random_state_arg G),
    p_buf h = Arr1 p ->
    length (reward_estimator_buf h) = length X ->
    length pred = length X -> length a = length X ->
    length r = length X -> length p = length X ->
    Forall2 (fun pi ai => pi <> ai) pred a ->
    evaluateDoublyRobust ambient h (Arr1 pred) X (Arr1 a) (Arr1 r)
      (@ReArray R C) nchoices false c pmin random_state
    = (Ok (np_mean (map fst (reward_estimator_buf h))), h).
Proof.
  intros ambient h pred a X r p nchoices c pmin rs Hh Hb Hpred Ha Hr Hp Hne.
  rewrite (evaluateDoublyRobust_on_array ambient h pred a X r p)
    by assumption.
  rewrite dr_corrected_no_match;
    rewrite ?length_map, ?length_dr_propensities; try congruence.
  now rewrite combine_fst_snd, store_eta.
Qed.

(** X16.  Two calls in a row on the same precomputed array, without
    imputation: the second call starts from the rows the first one
    corrected and corrects them again, so that it returns the mean of
    the twice-corrected rows. *)
Theorem evaluateDoublyRobust_second_call_corrects_again :
  forall (ambient ambient' : G) (h : store) (pred a : list Z) (X : matrix)
         (r p : list Q) (nchoices : option Z) (c pmin : option Q)
         (random_state random_state' : random_state_arg G),
    p_buf h = Arr1 p ->
    length (reward_estimator_buf h) = length X ->
    length pred = length X -> length a = length X ->
    length r = length X -> length p = length X ->
    Forall (fun x => ~ x == 0) (dr_propensities c pmin p) ->
    let matching := zip_with Z.eqb pred a in
    let rhat_old := map snd (reward_estimator_buf h) in
    let once :=
      dr_corrected (map fst (reward_estimator_buf h)) rhat_old matching r
        (dr_propensities c pmin p) in
    let h1 :=
      snd (evaluateDoublyRobust ambient h (Arr1 pred) X (Arr1 a) (Arr1 r)
             (@ReArray R C) nchoices false c pmin random_state) in
    fst (evaluateDoublyRobust ambient' h1 (Arr1 pred) X (Arr1 a) (Arr1 r)
           (@ReArray R C) nchoices false c pmin random_state')
    = Ok (np_mean
            (dr_corrected once rhat_old matching r
               (dr_propensities c pmin p))).
Proof.
  intros ambient ambient' h pred a X r p nchoices c pmin rs rs'
         Hh Hb Hpred Ha Hr Hp _ matching rhat_old once h1.
  assert (Hl : length once = length rhat_old).
  { subst once rhat_old matching. rewrite length_dr_corrected;
      rewrite ?length_map, ?length_dr_propensities, ?length_zip_with;
      congruence. }
  assert (E1 : h1 = mk_store (combine once rhat_old) (p_buf h)).
  { subst h1.
    now rewrite (evaluateDoublyRobust_on_array ambient h pred a X r p)
      by assumption. }
  rewrite (evaluateDoublyRobust_on_array ambient' h1 pred a X r p).
  - cbn [fst]. rewrite E1. cbn [reward_estimator_buf].
    rewrite map_fst_combine, map_snd_combine by assumption. reflexivity.
  - now rewrite E1.
  - rewrite E1. cbn [reward_estimator_buf].
    rewrite length_combine, Hl, Nat.min_id. subst rhat_old.
    now rewrite length_map.
  - assumption.
  - assumption.
  - assumption.
  - assumption.
Qed.

(** X17.  On a precomputed array none of whose estimates is 0 or 1,
    [handle_invalid] changes nothing: the call returns the same value
    and leaves the same store with imputation as without. *)
Theorem evaluateDoublyRobust_nothing_to_impute :
  forall (ambient : G) (h : store) (pred a : list Z) (X : matrix)
         (r p : list Q) (nchoices : option Z) (c pmin : option Q)
         (random_state : random_state_arg G),
    p_buf h = Arr1 p ->
    length (reward_estimator_buf h) = length X ->
    length pred = length X -> length a = length X ->
    length r = length X -> length p = length X ->
    Forall (fun x => ~ x == 0) (dr_propensities c pmin p) ->
    Forall (fun e => (~ fst e == 1 /\ ~ fst e == 0)
                     /\ (~ snd e == 1 /\ ~ snd e == 0))
           (reward_estimator_buf h) ->
    evaluateDoublyRobust ambient h (Arr1 pred) X (Arr1 a) (Arr1 r)
      (@ReArray R C) nchoices true c pmin random_state
    = evaluateDoublyRobust ambient h (Arr1 pred) X (Arr1 a) (Arr1 r)
        (@ReArray R C) nchoices false c pmin random_state.
Proof.
  intros ambient h pred a X r p nchoices c pmin rs Hh Hb Hpred Ha Hr Hp _ Hv.
  unfold evaluateDoublyRobust.
  rewrite (dr_validate_on_array ambient h pred a X r p) by assumption.
  unfold dr_estimate.
  destruct (impute_invalid_nothing_to_impute
              (_check_random_state ambient rs) h false) as [rs1 ->].
  { cbn [read]. apply Forall_map. eapply Forall_impl; [ | exact Hv ].
    now intros e [He _]. }
  destruct (impute_invalid_nothing_to_impute rs1 h true) as [rs2 ->].
  { cbn [read]. apply Forall_map. eapply Forall_impl; [ | exact Hv ].
    now intros e [_ He]. }
  reflexivity.
Qed.

End DoublyRobustStore.

(** ** The fully-labeled simulator on any input *)

Section FullyLabeledAnyInput.

Context {S G : Type}.
Context `{Policy S} `{Generator G}.

(** The part after the assertions ends in an exception and leaves the
    caller's arrays alone. *)
Lemma fl_run_raises (rs : G) (w : fl_world (S := S)) (X y_onehot : matrix)
  (online shuffle_flag update_freq : bool) :
  (exists e, fst (fl_run rs w X y_onehot online shuffle_flag update_freq)
             = Raise e)
  /\ fl_X (snd (fl_run rs w X y_onehot online shuffle_flag update_freq))
     = fl_X w
  /\ fl_y_onehot (snd (fl_run rs w X y_onehot online shuffle_flag update_freq))
     = fl_y_onehot w.
Proof.
  unfold fl_run.
  destruct (if shuffle_flag then _ else _) as [new_order rs'].
  destruct (bind _ _) as [[[bf ba] br]|e]; simpl.
  - split; [ eexists; reflexivity | split; reflexivity ].
  - split; [ eexists; reflexivity | split; reflexivity ].
Qed.

(** X18.  [evaluateFullyLabeled] returns on no input: every call ends in
    an exception (an assertion, an error of the seed batch, or the
    [NameError] of the loop header). *)
Theorem evaluateFullyLabeled_never_returns :
  forall (ambient : G) (w : fl_world (S := S))
         (online shuffle_flag update_freq : pyval)
         (random_state : random_state_arg G),
    exists e,
      fst (evaluateFullyLabeled ambient w online shuffle_flag update_freq
             random_state) = Raise e.
Proof.
  intros ambient w online shuffle_flag update_freq rs.
  unfold evaluateFullyLabeled.
  destruct (fl_validate _ _ _ _ _) as [[[[[X y] o] sh] uf]|e].
  - apply fl_run_raises.
  - eexists; reflexivity.
Qed.

(** X19.  No call of [evaluateFullyLabeled] modifies the caller's [X]
    or [y_onehot], with or without [shuffle]: the shuffled data are new
    arrays. *)
Theorem evaluateFullyLabeled_leaves_arrays :
  forall (ambient : G) (w : fl_world (S := S))
         (online shuffle_flag update_freq : pyval)
         (random_state : random_state_arg G),
    fl_X (snd (evaluateFullyLabeled ambient w online shuffle_flag
                 update_freq random_state)) = fl_X w
    /\ fl_y_onehot (snd (evaluateFullyLabeled ambient w online shuffle_flag
                           update_freq random_state)) = fl_y_onehot w.
Proof.
  intros ambient w online shuffle_flag update_freq rs.
  unfold evaluateFullyLabeled.
  destruct (fl_validate _ _ _ _ _) as [[[[[X y] o] sh] uf]|e].
  - apply fl_run_raises.
  - split; reflexivity.
Qed.

End FullyLabeledAnyInput.

(** ** The size of the correction *)

Lemma correction_term_bounded (ri ro q pm : Q) :
  0 < pm -> pm <= q -> unit_reward ri -> unit_reward ro ->
  - (1 / pm) <= (ri - ro) / q <= 1 / pm.
Proof.
  intros Hpm Hq [Hr0 Hr1] [Ho0 Ho1].
  assert (Hq0 : 0 < q) by lra.
  assert (Ht : 0 < 1 / pm).
  { apply Qlt_shift_div_l; [ assumption | lra ]. }
  assert (Etpm : (1 / pm) * pm == 1) by (field; lra).
  assert (Htq : 1 <= (1 / pm) * q) by nra.
  split.
  - apply Qle_shift_div_l; [ assumption | ]. nra.
  - apply Qle_shift_div_r; [ assumption | ]. nra.
Qed.

Lemma dr_corrected_bounded (pm : Q) :
  0 < pm ->
  forall (rhat_new rhat_old : list Q) (m : list bool) (r p : list Q),
    length rhat_old = length rhat_new -> length m = length rhat_new ->
    length r = length rhat_new -> length p = length rhat_new ->
    Forall unit_reward r -> Forall unit_reward rhat_old ->
    Forall (fun q => pm <= q) p ->
    Forall2 (fun new old => old - 1 / pm <= new <= old + 1 / pm)
            (dr_corrected rhat_new rhat_old m r p) rhat_new.
Proof.
  intros Hpm.
  induction rhat_new as [|rn rhat_new IH];
    intros [|ro rhat_old] [|b m] [|ri r] [|qi p] Ho Hm Hr Hp Ur Uo Up;
    try discriminate; simpl.
  - constructor.
  - inversion Ur; inversion Uo; inversion Up; subst.
    constructor.
    + assert (Ht : 0 < 1 / pm).
      { apply Qlt_shift_div_l; [ assumption | lra ]. }
      destruct b.
      * pose proof (correction_term_bounded ri ro qi pm) as Hb.
        destruct Hb as [Hlo Hhi]; try assumption. split; lra.
      * split; lra.
    + apply IH; simpl in *; try congruence; assumption.
Qed.

Section DoublyRobustBound.

Context {G R C : Type}.
Context `{Generator G} `{RewardModel R C G}.

(** X20.  With a positive [pmin], rewards between 0 and 1 and estimates
    for the logged actions between 0 and 1, on a precomputed array
    without imputation: whatever the propensities and [c], the call
    moves each estimate of the first column by at most [1/pmin]. *)
Theorem evaluateDoublyRobust_correction_bounded :
  forall (ambient : G) (h : store) (pred a : list Z) (X : matrix)
         (r p : list Q) (nchoices : option Z) (c : option Q) (pmin : Q)
         (random_state : random_state_arg G),
    p_buf h = Arr1 p ->
    length (reward_estimator_buf h) = length X ->
    length pred = length X -> length a = length X ->
    length r = length X -> length p = length X ->
    0 < pmin ->
    Forall unit_reward r ->
    Forall unit_reward (map snd (reward_estimator_buf h)) ->
    let h' :=
      snd (evaluateDoublyRobust ambient h (Arr1 pred) X (Arr1 a) (Arr1 r)
             (@ReArray R C) nchoices false c (Some pmin) random_state) in
    Forall2 (fun new old => old - 1 / pmin <= new <= old + 1 / pmin)
            (map fst (reward_estimator_buf h'))
            (map fst (reward_estimator_buf h)).
Proof.
  intros ambient h pred a X r p nchoices c pmin rs
         Hh Hb Hpred Ha Hr Hp Hpm Ur Uo h'.
  subst h'.
  rewrite (evaluateDoublyRobust_on_array ambient h pred a X r p)
    by assumption.
  cbn [snd reward_estimator_buf].
  rewrite map_fst_combine.
  2:{ rewrite length_dr_corrected;
        rewrite ?length_map, ?length_dr_propensities, ?length_zip_with;
        congruence. }
  apply dr_corrected_bounded;
    rewrite ?length_map, ?length_dr_propensities, ?length_zip_with;
    try congruence; try assumption.
  unfold dr_propensities, clip_below, np_clip_min.
  apply Forall_map. apply Forall_forall. intros x _. apply clip_min_lower.
Qed.

End DoublyRobustBound.

(** ** The online loop from a negative start index *)

Lemma py_getitem_valid {A : Type} (xs : list A) (i : Z) :
  valid_index xs i ->
  exists x, py_getitem xs i = Ok x
            /\ nth_error xs (py_position xs i) = Some x.
Proof.
  unfold valid_index, py_getitem, py_position. intros Hi.
  set (j := if (i <? 0)%Z then (i + Z.of_nat (length xs))%Z else i).
  assert (Hj : (0 <= j < Z.of_nat (length xs))%Z).
  { subst j. destruct (Z.ltb_spec i 0); lia. }
  destruct (Z.leb_spec 0 j); [ | lia ].
  destruct (Z.ltb_spec j (Z.of_nat (length xs))); [ | lia ].
  simpl.
  destruct (nth_error xs (Z.to_nat j)) eqn:E; [ eexists; split; reflexivity | ].
  apply nth_error_None in E. lia.
Qed.

Lemma np_take_valid {A : Type} (xs : list A) (ix : list Z) :
  Forall (valid_index xs) ix -> exists ys, np_take xs ix = Ok ys.
Proof.
  unfold np_take. induction 1 as [|i ix Hi _ IH]; simpl.
  - eexists; reflexivity.
  - destruct (py_getitem_valid xs i Hi) as [x [-> _]].
    destruct IH as [ys ->]. simpl. eexists; reflexivity.
Qed.

Lemma valid_index_same_length {A B : Type} (xs : list A) (ys : list B)
  (i : Z) :
  length ys = length xs -> valid_index xs i -> valid_index ys i.
Proof. unfold valid_index. intros ->. trivial. Qed.

Lemma py_position_same_length {A B : Type} (xs : list A) (ys : list B)
  (i : Z) :
  length ys = length xs -> py_position ys i = py_position xs i.
Proof. unfold py_position. now intros ->. Qed.

Lemma py_range_valid {A : Type} (xs : list A) (lo hi : Z) :
  (- Z.of_nat (length xs) <= lo)%Z -> (hi <= Z.of_nat (length xs))%Z ->
  Forall (valid_index xs) (py_range lo hi).
Proof.
  intros Hlo Hhi. unfold py_range. apply Forall_forall. intros i Hi.
  apply in_map_iff in Hi. destruct Hi as [k [<- Hk]].
  apply in_seq in Hk. unfold valid_index. lia.
Qed.

Section OnlineNegativeStart.

Context {S G : Type} `{Policy S} `{Generator G}.

Variables (X : matrix) (a : list Z) (r : list Q).
Variables (partial_fit_flag : bool) (update_freq : Z).
Variable refitted : S -> Prop.

Hypothesis length_a : length a = length X.
Hypothesis length_r : length r = length X.
Hypothesis update_freq_pos : (0 < update_freq)%Z.
Hypothesis refitted_fit :
  forall st Xf af rf, refitted st -> refitted (fit st Xf af rf).
Hypothesis refitted_partial_fit :
  forall st Xf af rf, refitted st -> refitted (partial_fit st Xf af rf).
Hypothesis predicts_logged :
  forall st i x ai,
    refitted st -> nth_error X i = Some x -> nth_error a i = Some ai ->
    fst (predict st [x]) = [ai] /\ refitted (snd (predict st [x])).

Lemma rs_refit_valid (ix : list Z) (pol : S) :
  ix <> [] -> Forall (valid_index X) ix -> refitted pol ->
  exists pol',
    rs_refit partial_fit_flag update_freq X a r ix pol = Ok pol'
    /\ refitted pol'.
Proof.
  intros Hne Hix Hpol. unfold rs_refit.
  set (ix_fit := if negb partial_fit_flag then ix
                 else slice_stop_rev ix (- (update_freq + 1))).
  assert (Hfit : ix_fit <> [] /\ Forall (valid_index X) ix_fit).
  { subst ix_fit. destruct partial_fit_flag; simpl; [ | now split ].
    destruct (slice_stop_rev_last_chunk ix update_freq update_freq_pos Hne)
      as [Hn Hin].
    split; [ assumption | ].
    apply Forall_forall. intros i Hi.
    rewrite Forall_forall in Hix. auto. }
  destruct Hfit as [Hn Hr].
  destruct ix_fit as [|i0 ix_fit]; [ contradiction | ].
  destruct (np_take_valid X _ Hr) as [Xf ->].
  destruct (np_take_valid a (i0 :: ix_fit)) as [af ->].
  { eapply Forall_impl; [ | exact Hr ].
    intros i. now apply valid_index_same_length. }
  destruct (np_take_valid r (i0 :: ix_fit)) as [rf ->].
  { eapply Forall_impl; [ | exact Hr ].
    intros i. now apply valid_index_same_length. }
  simpl. eexists; split; [ reflexivity | ].
  destruct partial_fit_flag; simpl; auto.
Qed.

Lemma rs_step_accepts_valid (st : rs_state) (i : Z) :
  valid_index X i -> Forall (valid_index X) (ix_chosen st) ->
  refitted (policy_state st) ->
  exists st',
    rs_step partial_fit_flag update_freq X a r st i = Ok st'
    /\ ix_chosen st' = ix_chosen st ++ [i]
    /\ cum_n st' = (cum_n st + 1)%Z
    /\ refitted (policy_state st').
Proof.
  intros Hi Hix Hpol. unfold rs_step.
  destruct (py_getitem_valid X i Hi) as [x [Ex Nx]]. rewrite Ex. simpl.
  destruct (py_getitem_valid a i) as [ai [Ea Na]].
  { now apply (valid_index_same_length X). }
  destruct (py_getitem_valid r i) as [ri [Er _]].
  { now apply (valid_index_same_length X). }
  rewrite (py_position_same_length X a i length_a) in Na.
  destruct (predicts_logged (policy_state st) _ x ai Hpol Nx Na)
    as [Hpred Hpol'].
  destruct (predict (policy_state st) [x]) as [preds pol]. simpl in *.
  subst preds. cbn [py_getitem length nth_error Z.to_nat]. simpl.
  rewrite Ea. simpl. rewrite Z.eqb_refl, Er. simpl.
  destruct (Z.eqb_spec update_freq 0); [ lia | ].
  destruct ((cum_n st + 1) mod update_freq =? 0)%Z.
  - destruct (rs_refit_valid (ix_chosen st ++ [i]) pol) as [pol' [-> Hp]].
    + now destruct (ix_chosen st).
    + apply Forall_app. split; [ assumption | now constructor ].
    + assumption.
    + simpl. eexists; repeat split; assumption.
  - eexists; repeat split; assumption.
Qed.

Lemma rs_for_accepts_valid :
  forall (ixs : list Z) (st : rs_state),
    Forall (valid_index X) ixs -> Forall (valid_index X) (ix_chosen st) ->
    refitted (policy_state st) ->
    exists st',
      rs_for partial_fit_flag update_freq X a r st ixs = Ok st'
      /\ ix_chosen st' = ix_chosen st ++ ixs
      /\ cum_n st' = (cum_n st + Z.of_nat (length ixs))%Z
      /\ refitted (policy_state st').
Proof.
  induction ixs as [|i ixs IH]; intros st Hixs Hst Hpol; simpl.
  - exists st. rewrite app_nil_r, Z.add_0_r. auto.
  - inversion Hixs as [|? ? Hi Hixs']; subst.
    destruct (rs_step_accepts_valid st i Hi Hst Hpol)
      as [st1 [-> [E1 [N1 P1]]]].
    simpl.
    destruct (IH st1 Hixs') as [st2 [-> [E2 [N2 P2]]]]; [ | assumption | ].
    { rewrite E1. apply Forall_app. split; [ assumption | now constructor ]. }
    exists st2. rewrite E2, E1, N2, N1, <- app_assoc.
    repeat split; [ lia | assumption ].
Qed.

(** X21.  Online with a positive [update_freq] and a policy that
    predicts the logged action in every state its refitting reaches, a
    negative start index [s] of [[-n, 0)] makes the first loop run over
    [s .. n-1], where the negative indices read the last [-s] rows, and
    the second loop run over nothing: the last [-s] rows are accepted
    twice and the count returned is [n - s], more than the number of
    rows. *)
Theorem evaluateRejectionSampling_online_negative_start :
  forall (ambient : G) (policy : S) (random_state : random_state_arg G)
         (s : Z),
    refitted policy -> (- Z.of_nat (length X) <= s < 0)%Z ->
    exists st,
      rs_online_loops policy X a r partial_fit_flag (StartInt s) update_freq
      = Ok st
      /\ ix_chosen st = py_range s (Z.of_nat (length X))
      /\ evaluateRejectionSampling ambient policy X (Arr1 a) (Arr1 r)
           true partial_fit_flag (SpInt s) random_state update_freq
         = Ok (Val (cum_r st / inject_Z (Z.of_nat (length X) - s)),
               (Z.of_nat (length X) - s)%Z).
Proof.
  intros ambient policy random_state s Hpol Hs.
  set (n := Z.of_nat (length X)) in *.
  set (st0 := mk_rs_state 0 0 []
                (fit policy (firstn 0 X) (firstn 0 a) (firstn 0 r))).
  destruct (rs_for_accepts_valid (py_range s n) st0)
    as [st1 [E1 [I1 [N1 P1]]]].
  { apply py_range_valid; subst n; lia. }
  { constructor. }
  { apply refitted_fit, Hpol. }
  assert (Eloops : rs_online_loops policy X a r partial_fit_flag
                     (StartInt s) update_freq = Ok st1).
  { unfold rs_online_loops. fold n. fold st0. rewrite E1. cbn [bind].
    now rewrite (py_range_empty 0 s) by lia. }
  assert (Ecount : cum_n st1 = (n - s)%Z).
  { rewrite N1, length_py_range. simpl. lia. }
  exists st1. split; [ exact Eloops | ].
  split; [ now rewrite I1 | ].
  unfold evaluateRejectionSampling.
  rewrite check_fit_input_ok by assumption.
  cbn [bind resolve_start_point negb]. rewrite Eloops.
  cbn [bind]. rewrite Ecount.
  destruct (Z.eqb_spec (n - s) 0); [ lia | reflexivity ].
Qed.

End OnlineNegativeStart.

(** ** The further properties on examples *)

(** Three rows, the third with a ratio above the cap. *)
Lemma evaluateNCIS_raises_ValueError_witness :
  evaluateNCIS (Arr1 [1; 1 # 2; 300]) [[0]; [0]; [0]] (Arr1 [1; 0; 1])
    (Arr1 [1 # 2; 1 # 2; 1]) (1 # 100000000) 100
  = match kept_rows (1 # 100000000) 100 [1; 1 # 2; 300] [1; 0; 1]
            [1 # 2; 1 # 2; 1] with
    | [] => Raise (ValueError no_cases_msg)
    | _ :: _ =>
        Raise (ValueError
          "einstein sum subscripts string contains too many subscripts for operand 0")
    end.
Proof.
  apply (evaluateNCIS_raises_ValueError
           [1; 1 # 2; 300] [1; 0; 1] [1 # 2; 1 # 2; 1] [[0]; [0]; [0]]);
    try reflexivity.
  repeat constructor; vm_compute; discriminate.
Defined.

(** Two rows with the cap 1/2 below the floor 1. *)
Lemma evaluateDoublyRobustSimplified_cap_below_floor_witness :
  evaluateDoublyRobustSimplified (Arr1 [1; 1 # 2]) [[0]; [0]]
    (Arr1 [1; 0]) (Arr1 [1 # 2; 1 # 2]) 1 (1 # 2)
  = Raise (ValueError no_cases_msg).
Proof.
  apply (evaluateDoublyRobustSimplified_cap_below_floor
           [1; 1 # 2] [1; 0] [1 # 2; 1 # 2] [[0]; [0]]);
    try reflexivity.
  repeat constructor; vm_compute; discriminate.
Defined.

(** Three rows scored alike by both policies. *)
Lemma evaluateDoublyRobustSimplified_same_scores_witness :
  exists v,
    evaluateDoublyRobustSimplified (Arr1 [1 # 2; 1 # 4; 3 # 4])
      [[0]; [0]; [0]] (Arr1 [1; 0; 1]) (Arr1 [1 # 2; 1 # 4; 3 # 4])
      (1 # 100000000) 100
    = Ok (Val v)
    /\ v == np_sum [1; 0; 1] / inject_Z (Z.of_nat (length [[0]; [0]; [0]])).
Proof.
  apply (evaluateDoublyRobustSimplified_same_scores
           [1; 0; 1] [1 # 2; 1 # 4; 3 # 4] [[0]; [0]; [0]]);
    try reflexivity; try discriminate.
  repeat constructor; vm_compute; discriminate.
Defined.

(** Three rows, two of which the oracle policy matches. *)
Lemma evaluateRejectionSampling_offline_bounds_witness :
  0 <= 1 # 2 <= 1 /\ (1 <= 2 <= Z.of_nat (length [[1]; [0]; [1]]))%Z.
Proof.
  apply (evaluateRejectionSampling_offline_bounds
           0%Z 0%nat [[1]; [0]; [1]] [1; 1; 1]%Z [1; 1; 0]
           false SpRandom (RsSeed 1) 10 (1 # 2) 2);
    try reflexivity.
  repeat constructor; vm_compute; discriminate.
Defined.

Lemma evaluateRejectionSampling_offline_ignores_online_parameters_witness :
  evaluateRejectionSampling 0%Z 0%nat [[1]; [0]; [1]]
    (Arr1 [1; 1; 1]%Z) (Arr1 [1; 1; 0]) false false SpRandom (RsSeed 1) 10
  = evaluateRejectionSampling 7%Z 0%nat [[1]; [0]; [1]]
      (Arr1 [1; 1; 1]%Z) (Arr1 [1; 1; 0]) false true (SpInt 2) RsNone 0.
Proof.
  apply (evaluateRejectionSampling_offline_ignores_online_parameters
           0%Z 7%Z 0%nat [[1]; [0]; [1]] [1; 1; 1]%Z [1; 1; 0]);
    try reflexivity; discriminate.
Defined.

(** Online on the same three rows, from index 1, refitting every second
    acceptance. *)
Lemma evaluateRejectionSampling_online_count_bounds_witness :
  evaluateRejectionSampling 0%Z 0%nat [[1]; [0]; [1]]
    (Arr1 [1; 1; 1]%Z) (Arr1 [1; 1; 0]) true false (SpInt 1) (RsSeed 1) 2
  = Raise (ValueError no_match_msg)
  \/ exists mean count,
       evaluateRejectionSampling 0%Z 0%nat [[1]; [0]; [1]]
         (Arr1 [1; 1; 1]%Z) (Arr1 [1; 1; 0]) true false (SpInt 1)
         (RsSeed 1) 2
       = Ok (Val mean, count)
       /\ (1 <= count <= Z.of_nat (length [[1]; [0]; [1]]))%Z.
Proof.
  apply (evaluateRejectionSampling_online_count_bounds
           [[1]; [0]; [1]] [1; 1; 1]%Z [1; 1; 0] false 2);
    try reflexivity; simpl; lia.
Defined.

Lemma rs_online_loops_accept_each_row_at_most_once_witness :
  exists st (mask : list bool),
    rs_online_loops 0%nat [[1]; [0]; [1]] [1; 1; 1]%Z [1; 1; 0] false
      (StartInt 1) 2 = Ok st
    /\ ix_chosen st =
       select mask (py_range 1 (Z.of_nat (length [[1]; [0]; [1]]))
                    ++ py_range 0 1)
    /\ NoDup (ix_chosen st)
    /\ cum_n st = Z.of_nat (length (ix_chosen st))
    /\ cum_r st = np_sum (rewards_at [1; 1; 0] (ix_chosen st)).
Proof.
  apply (rs_online_loops_accept_each_row_at_most_once
           [[1]; [0]; [1]] [1; 1; 1]%Z [1; 1; 0] false 2);
    try reflexivity; simpl; lia.
Defined.

Lemma evaluateRejectionSampling_online_mean_in_unit_interval_witness :
  0 <= 1 # 2 <= 1.
Proof.
  apply (evaluateRejectionSampling_online_mean_in_unit_interval
           [[1]; [0]; [1]] [1; 1; 1]%Z [1; 1; 0] false 2
           eq_refl eq_refl eq_refl 0%Z 0%nat (RsSeed 1) 1 (1 # 2) 2).
  - simpl. lia.
  - repeat constructor; vm_compute; discriminate.
  - reflexivity.
Defined.

Lemma evaluateRejectionSampling_online_zero_update_freq_witness :
  evaluateRejectionSampling 0%Z 0%nat [[1]; [0]; [1]]
    (Arr1 [1; 1; 1]%Z) (Arr1 [1; 1; 0]) true false (SpInt 1) (RsSeed 1) 0
  = Raise ZeroDivisionError
  \/ evaluateRejectionSampling 0%Z 0%nat [[1]; [0]; [1]]
       (Arr1 [1; 1; 1]%Z) (Arr1 [1; 1; 0]) true false (SpInt 1) (RsSeed 1) 0
     = Raise (ValueError no_match_msg).
Proof.
  apply (evaluateRejectionSampling_online_zero_update_freq
           [[1]; [0]; [1]] [1; 1; 1]%Z [1; 1; 0] false);
    try reflexivity; simpl; lia.
Defined.

Lemma evaluateRejectionSampling_online_start_out_of_range_witness :
  evaluateRejectionSampling 0%Z 0%nat [[1]; [0]; [1]]
    (Arr1 [1; 1; 1]%Z) (Arr1 [1; 1; 0]) true false (SpInt 5) (RsSeed 1) 2
  = Raise IndexError.
Proof.
  apply (evaluateRejectionSampling_online_start_out_of_range
           [[1]; [0]; [1]] [1; 1; 1]%Z [1; 1; 0] false 2);
    try reflexivity; simpl; lia.
Defined.

Lemma evaluateRejectionSampling_start_point_types_witness :
  (forall online : bool,
      evaluateRejectionSampling 0%Z 0%nat [[1]; [0]; [1]]
        (Arr1 [1; 1; 1]%Z) (Arr1 [1; 1; 0]) online false SpOther
        (RsSeed 1) 2
      = Raise (ValueError start_point_msg))
  /\ (forall q : Q,
        evaluateRejectionSampling 0%Z 0%nat [[1]; [0]; [1]]
          (Arr1 [1; 1; 1]%Z) (Arr1 [1; 1; 0]) true false (SpFloat q)
          (RsSeed 1) 2
        = Raise TypeError).
Proof.
  apply (evaluateRejectionSampling_start_point_types
           [[1]; [0]; [1]] [1; 1; 1]%Z [1; 1; 0] false);
    reflexivity.
Defined.

(** Three accepted rows and a refit every second acceptance: the
    incremental batch is the last two. *)
Lemma rs_refit_batches_witness :
  (exists Xf af rf,
      np_take [[1]; [0]; [1]] [1; 2; 0]%Z = Ok Xf
      /\ np_take [1; 1; 1]%Z [1; 2; 0]%Z = Ok af
      /\ np_take [1; 1; 0] [1; 2; 0]%Z = Ok rf
      /\ rs_refit false 2 [[1]; [0]; [1]] [1; 1; 1]%Z [1; 1; 0]
           [1; 2; 0]%Z 0%nat
         = Ok (fit 0%nat Xf af rf))
  /\ (exists Xf af rf,
         let batch := firstn (Z.to_nat 2) (rev [1; 2; 0]%Z) in
         np_take [[1]; [0]; [1]] batch = Ok Xf
         /\ np_take [1; 1; 1]%Z batch = Ok af
         /\ np_take [1; 1; 0] batch = Ok rf
         /\ rs_refit true 2 [[1]; [0]; [1]] [1; 1; 1]%Z [1; 1; 0]
              [1; 2; 0]%Z 0%nat
            = Ok (partial_fit 0%nat Xf af rf)).
Proof.
  apply (rs_refit_batches [[1]; [0]; [1]] [1; 1; 1]%Z [1; 1; 0] 2);
    try reflexivity; try discriminate; try lia.
  repeat constructor; vm_compute; reflexivity || discriminate.
Defined.

(** Two rows, none matching. *)
Lemma evaluateDoublyRobust_no_match_is_direct_method_witness :
  evaluateDoublyRobust (R := unit) (C := unit) 0%Z
    (mk_store [(1 # 2, 1 # 4); (1 # 3, 0)] (Arr1 [1 # 2; 0]))
    (Arr1 [1; 0]%Z) [[0]; [0]] (Arr1 [0; 1]%Z) (Arr1 [1; 0])
    ReArray None false None None (RsSeed 1)
  = (Ok (np_mean (map fst [(1 # 2, 1 # 4); (1 # 3, 0)])),
     mk_store [(1 # 2, 1 # 4); (1 # 3, 0)] (Arr1 [1 # 2; 0])).
Proof.
  apply (evaluateDoublyRobust_no_match_is_direct_method (R := unit)
           (C := unit) 0%Z
           (mk_store [(1 # 2, 1 # 4); (1 # 3, 0)] (Arr1 [1 # 2; 0]))
           [1; 0]%Z [0; 1]%Z [[0]; [0]] [1; 0] [1 # 2; 0]);
    try reflexivity.
  repeat constructor; discriminate.
Defined.

(** Two rows, the first matching, evaluated twice on the same array. *)
Lemma evaluateDoublyRobust_second_call_corrects_again_witness :
  let h := mk_store [(1 # 2, 1 # 4); (1 # 3, 0)] (Arr1 [1 # 2; 1 # 2]) in
  let matching := zip_with Z.eqb [1; 0]%Z [1; 1]%Z in
  let rhat_old := map snd (reward_estimator_buf h) in
  let once :=
    dr_corrected (map fst (reward_estimator_buf h)) rhat_old matching [1; 0]
      (dr_propensities None None [1 # 2; 1 # 2]) in
  let h1 :=
    snd (evaluateDoublyRobust (R := unit) (C := unit) 0%Z h
           (Arr1 [1; 0]%Z) [[0]; [0]] (Arr1 [1; 1]%Z) (Arr1 [1; 0])
           ReArray None false None None (RsSeed 1)) in
  fst (evaluateDoublyRobust (R := unit) (C := unit) 0%Z h1
         (Arr1 [1; 0]%Z) [[0]; [0]] (Arr1 [1; 1]%Z) (Arr1 [1; 0])
         ReArray None false None None (RsSeed 1))
  = Ok (np_mean
          (dr_corrected once rhat_old matching [1; 0]
             (dr_propensities None None [1 # 2; 1 # 2]))).
Proof.
  apply (evaluateDoublyRobust_second_call_corrects_again (R := unit)
           (C := unit) 0%Z 0%Z
           (mk_store [(1 # 2, 1 # 4); (1 # 3, 0)] (Arr1 [1 # 2; 1 # 2]))
           [1; 0]%Z [1; 1]%Z [[0]; [0]] [1; 0] [1 # 2; 1 # 2]);
    try reflexivity.
  repeat constructor; vm_compute; discriminate.
Defined.

(** A fitted model as reward estimator, with imputation. *)
Lemma evaluateDoublyRobust_model_leaves_store_witness :
  snd (evaluateDoublyRobust (R := unit) (C := unit) 0%Z
         (mk_store [] (Arr1 [1 # 2; 1 # 2]))
         (Arr1 [1; 0]%Z) [[0]; [0]] (Arr1 [1; 1]%Z) (Arr1 [1; 0])
         (ReSeparate tt) None true None (Some (1 # 100000)) (RsSeed 1))
  = mk_store [] (Arr1 [1 # 2; 1 # 2]).
Proof.
  apply (evaluateDoublyRobust_model_leaves_store (R := unit) (C := unit)).
  discriminate.
Defined.

(** Two matching rows with propensities below [pmin = 1/10]. *)
Lemma evaluateDoublyRobust_correction_bounded_witness :
  let h := mk_store [(1 # 2, 1 # 4); (1 # 3, 1)] (Arr1 [1 # 100; 1 # 50]) in
  let h' :=
    snd (evaluateDoublyRobust (R := unit) (C := unit) 0%Z h
           (Arr1 [1; 1]%Z) [[0]; [0]] (Arr1 [1; 1]%Z) (Arr1 [1; 0])
           ReArray None false None (Some (1 # 10)) (RsSeed 1)) in
  Forall2 (fun new old => old - 1 / (1 # 10) <= new <= old + 1 / (1 # 10))
          (map fst (reward_estimator_buf h'))
          (map fst (reward_estimator_buf h)).
Proof.
  apply (evaluateDoublyRobust_correction_bounded (R := unit) (C := unit)
           0%Z
           (mk_store [(1 # 2, 1 # 4); (1 # 3, 1)] (Arr1 [1 # 100; 1 # 50]))
           [1; 1]%Z [1; 1]%Z [[0]; [0]] [1; 0] [1 # 100; 1 # 50]);
    try reflexivity;
    repeat constructor; vm_compute; discriminate.
Defined.

(** Two rows whose estimates are strictly between 0 and 1. *)
Lemma evaluateDoublyRobust_nothing_to_impute_witness :
  evaluateDoublyRobust (R := unit) (C := unit) 0%Z
    (mk_store [(1 # 2, 1 # 4); (1 # 3, 2 # 3)] (Arr1 [1 # 2; 1 # 2]))
    (Arr1 [1; 0]%Z) [[0]; [0]] (Arr1 [1; 1]%Z) (Arr1 [1; 0])
    ReArray None true None None (RsSeed 1)
  = evaluateDoublyRobust (R := unit) (C := unit) 0%Z
      (mk_store [(1 # 2, 1 # 4); (1 # 3, 2 # 3)] (Arr1 [1 # 2; 1 # 2]))
      (Arr1 [1; 0]%Z) [[0]; [0]] (Arr1 [1; 1]%Z) (Arr1 [1; 0])
      ReArray None false None None (RsSeed 1).
Proof.
  apply (evaluateDoublyRobust_nothing_to_impute (R := unit) (C := unit)
           0%Z
           (mk_store [(1 # 2, 1 # 4); (1 # 3, 2 # 3)] (Arr1 [1 # 2; 1 # 2]))
           [1; 0]%Z [1; 1]%Z [[0]; [0]] [1; 0] [1 # 2; 1 # 2]);
    try reflexivity;
    repeat constructor; vm_compute; discriminate.
Defined.

(** Three rows that an oracle policy predicts, started at index -2: five
    acceptances. *)
Lemma evaluateRejectionSampling_online_negative_start_witness :
  exists st,
    rs_online_loops 0%nat [[1]; [0]; [2]] [1; 0; 2]%Z [1; 0; 1] true
      (StartInt (-2)) 2 = Ok st
    /\ ix_chosen st = py_range (-2) (Z.of_nat (length [[1]; [0]; [2]]))
    /\ evaluateRejectionSampling 0%Z 0%nat [[1]; [0]; [2]]
         (Arr1 [1; 0; 2]%Z) (Arr1 [1; 0; 1]) true true (SpInt (-2))
         (RsSeed 1) 2
       = Ok (Val (cum_r st
                  / inject_Z (Z.of_nat (length [[1]; [0]; [2]]) - -2)),
             (Z.of_nat (length [[1]; [0]; [2]]) - -2)%Z).
Proof.
  apply (evaluateRejectionSampling_online_negative_start
           [[1]; [0]; [2]] [1; 0; 2]%Z [1; 0; 1] true 2 (fun _ => True)).
  - reflexivity.
  - reflexivity.
  - lia.
  - trivial.
  - trivial.
  - intros st [|[|[|i]]] x ai _ Hx Ha; simpl in Hx, Ha;
      try (destruct i; discriminate);
      injection Hx as <-; injection Ha as <-;
      (split; [ reflexivity | trivial ]).
  - trivial.
  - simpl. lia.
Defined.

